(** * BizlyticsApp backend: session guard and billing-event reconciler

    A shallow embedding of the session/authentication layer
    ([requireAuth], [GET /api/auth/me]) and of the Stripe webhook consumer
    ([routes/webhooks.js]) together with the account and subscription
    routes that write the [users] table.

    Modelling conventions.
    - A table is the list of its rows, in storage order; a [SELECT] without
      [ORDER BY] returns the matching rows in that order and an [UPDATE]
      rewrites rows in place.
    - Timestamps are integers (milliseconds since the epoch); one request
      observes one instant [now], used both for [new Date()] and for
      [CURRENT_TIMESTAMP].
    - A handler is a computation in the monad [M]: it threads the database
      and may throw; [try_catch] is the source's [try { } catch { }].
      Writes are not transactional, as in the source: what was written
      before a throw stays written.
    - Surrogate [id] columns that no modelled statement reads
      (subscriptions, alerts, sessions, integrations) are left out, as are
      connection faults and column-width overflows of the storage layer.
    - Libraries outside the repository (jsonwebtoken, bcryptjs, stripe, the
      JavaScript date and number formatters) are the fields of the class
      [External]. *)

From Stdlib Require Import ZArith List String Bool Lia.
Import ListNotations.
Local Open Scope string_scope.
Local Open Scope Z_scope.

(** ** JSON values and HTTP responses *)

#[local] Set Warnings "-register-all".

Inductive json : Type :=
| JNull
| JBool (b : bool)
| JNum (n : Z)
| JStr (s : string)
| JHundredths (cents : Z)
| JArr (items : list json)
| JObj (fields : list (string * json)).

Record response : Type := mkResponse { status : Z; body : json }.

(** [res.json(b)] answers with status 200. *)
Definition res_json (b : json) : response := mkResponse 200 b.

(** [res.status(code).json({ error: msg })]. *)
Definition res_error (code : Z) (msg : string) : response :=
  mkResponse code (JObj [("error", JStr msg)]).

(** A nullable string column in a JSON body. *)
Definition json_opt_string (s : option string) : json :=
  match s with Some v => JStr v | None => JNull end.

(** A 5xx status. *)
Definition server_error (r : response) : Prop := 500 <= status r < 600.

(** A 2xx status. *)
Definition acknowledged (r : response) : Prop := 200 <= status r < 300.

(** ** JavaScript string helpers *)

(** [drop_prefix p s] is [Some rest] when [s = p ++ rest]. *)
Fixpoint drop_prefix (p s : string) : option string :=
  match p with
  | EmptyString => Some s
  | String a p' =>
      match s with
      | EmptyString => None
      | String b s' => if Ascii.eqb a b then drop_prefix p' s' else None
      end
  end.

(** [s.replace(p, '')] with a string pattern: the first occurrence of [p]
    is removed, the rest is kept. *)
Fixpoint remove_first (p s : string) : string :=
  match drop_prefix p s with
  | Some rest => rest
  | None =>
      match s with
      | EmptyString => EmptyString
      | String c s' => String c (remove_first p s')
      end
  end.

(** Truthiness of an optional string: [undefined] and [''] are falsy. *)
Definition truthy (s : option string) : bool :=
  match s with
  | None => false
  | Some EmptyString => false
  | Some _ => true
  end.

(** [a || b] on an optional string with a string default. *)
Definition or_default (a : option string) (b : string) : string :=
  match a with
  | None => b
  | Some EmptyString => b
  | Some s => s
  end.

(** ** The persisted schema ([createTables] in database.js) *)

Module users.
Record row : Type := mk {
    id : Z;
    email : string;
    password_hash : string;
    name : string;
    company_name : option string;
    subscription_status : string;
    stripe_customer_id : option string;
    created_at : Z;
    updated_at : Z
  }.
End users.

Module subscriptions.
Record row : Type := mk {
    user_id : Z;
    stripe_subscription_id : option string;
    status : string;
    plan_type : string;
    current_period_start : Z;
    current_period_end : Z;
    cancel_at_period_end : bool;
    created_at : Z;
    updated_at : Z
  }.
End subscriptions.

Module integrations.
Record row : Type := mk {
    user_id : Z;
    integration_type : string;
    integration_name : string;
    is_active : bool
  }.
End integrations.

Module alerts.
Record row : Type := mk {
    user_id : Z;
    alert_type : string;
    title : string;
    message : string;
    severity : string;
    is_read : bool;
    data : option json;
    created_at : Z
  }.
End alerts.

Module sessions.
Record row : Type := mk {
    user_id : Z;
    session_token : string;
    expires_at : Z;
    created_at : Z
  }.
End sessions.

Record DB : Type := mkDB {
  tbl_users : list users.row;
  users_id_seq : Z;
  tbl_subscriptions : list subscriptions.row;
  tbl_integrations : list integrations.row;
  tbl_alerts : list alerts.row;
  tbl_sessions : list sessions.row
}.

Definition set_users (f : list users.row -> list users.row) (db : DB) : DB :=
  mkDB (f (tbl_users db)) (users_id_seq db) (tbl_subscriptions db)
       (tbl_integrations db) (tbl_alerts db) (tbl_sessions db).

Definition set_users_id_seq (n : Z) (db : DB) : DB :=
  mkDB (tbl_users db) n (tbl_subscriptions db)
       (tbl_integrations db) (tbl_alerts db) (tbl_sessions db).

Definition set_subscriptions
  (f : list subscriptions.row -> list subscriptions.row) (db : DB) : DB :=
  mkDB (tbl_users db) (users_id_seq db) (f (tbl_subscriptions db))
       (tbl_integrations db) (tbl_alerts db) (tbl_sessions db).

Definition set_integrations
  (f : list integrations.row -> list integrations.row) (db : DB) : DB :=
  mkDB (tbl_users db) (users_id_seq db) (tbl_subscriptions db)
       (f (tbl_integrations db)) (tbl_alerts db) (tbl_sessions db).

Definition set_alerts (f : list alerts.row -> list alerts.row) (db : DB) : DB :=
  mkDB (tbl_users db) (users_id_seq db) (tbl_subscriptions db)
       (tbl_integrations db) (f (tbl_alerts db)) (tbl_sessions db).

Definition set_sessions
  (f : list sessions.row -> list sessions.row) (db : DB) : DB :=
  mkDB (tbl_users db) (users_id_seq db) (tbl_subscriptions db)
       (tbl_integrations db) (tbl_alerts db) (f (tbl_sessions db)).

(** SQL [col = $1] on a nullable column: [NULL] equals nothing. *)
Definition sql_eq (col : option string) (v : string) : bool :=
  match col with
  | Some c => String.eqb c v
  | None => false
  end.

(** ** The handler monad: database state and JavaScript exceptions *)

Inductive exn : Type :=
| JsonWebTokenError
| UniqueViolation (constraint : string)
| ForeignKeyViolation (constraint : string)
| StripeError (type message : string)
| TypeError.

Inductive result (A : Type) : Type :=
| Ok (a : A)
| Throw (e : exn).
Arguments Ok {A} a.
Arguments Throw {A} e.

Definition M (A : Type) : Type := DB -> result A * DB.

Definition ret {A} (a : A) : M A := fun db => (Ok a, db).

Definition throw {A} (e : exn) : M A := fun db => (Throw e, db).

Definition bind {A B} (m : M A) (k : A -> M B) : M B :=
  fun db =>
    match m db with
    | (Ok a, db') => k a db'
    | (Throw e, db') => (Throw e, db')
    end.

Definition try_catch {A} (m : M A) (handler : exn -> M A) : M A :=
  fun db =>
    match m db with
    | (Ok a, db') => (Ok a, db')
    | (Throw e, db') => handler e db'
    end.

Definition get_db : M DB := fun db => (Ok db, db).

Definition modify (f : DB -> DB) : M unit := fun db => (Ok tt, f db).

Declare Scope handler_scope.
Delimit Scope handler_scope with handler.
Notation "x <- m ;; k" := (bind m (fun x => k))
  (at level 61, m at next level, right associativity) : handler_scope.
Notation "m ;; k" := (bind m (fun _ => k))
  (at level 61, right associativity) : handler_scope.
Local Open Scope handler_scope.

(** The value a handler answers with, and the database it leaves. *)
Definition reply_of {A} (r : result A * DB) : result A := fst r.
Definition db_after {A} (r : result A * DB) : DB := snd r.

(** ** External collaborators *)

(** Process configuration ([process.env]). *)
Record env : Type := mkEnv {
  JWT_SECRET : option string;
  STRIPE_SECRET_KEY : option string;
  STRIPE_WEBHOOK_SECRET : option string
}.

(** Payloads of the billing processor ([event.data.object]). *)
Record stripe_subscription : Type := mkStripeSubscription {
  sub_id : string;
  sub_customer : string;
  sub_status : string;
  sub_metadata_plan_type : option string;
  sub_current_period_start : Z;
  sub_current_period_end : Z;
  sub_cancel_at_period_end : bool;
  sub_trial_end : option Z;
  (** [latest_invoice.payment_intent.client_secret]; [None] when the
      invoice has no payment intent to read it from. *)
  sub_client_secret : option string
}.

Record stripe_invoice : Type := mkStripeInvoice {
  inv_id : string;
  inv_customer : string;
  inv_amount_paid : Z;
  inv_amount_due : Z;
  inv_currency : string
}.

Record stripe_customer : Type := mkStripeCustomer {
  cus_id : string;
  cus_email : option string
}.

(** A verified event: its [type] decides the shape of [data.object].
    [unhandled ty] stands for every event whose [type] is none of the seven
    strings of the dispatcher's [switch]. *)
Inductive event : Type :=
| customer_subscription_created (o : stripe_subscription)
| customer_subscription_updated (o : stripe_subscription)
| customer_subscription_deleted (o : stripe_subscription)
| invoice_payment_succeeded (o : stripe_invoice)
| invoice_payment_failed (o : stripe_invoice)
| customer_subscription_trial_will_end (o : stripe_subscription)
| customer_created (o : stripe_customer)
| unhandled (type : string).

Class External : Type := {
  (** [jwt.verify(token, secret)] at instant [now]: the decoded [userId],
      or [None] when it throws. *)
  jwt_verify : string -> string -> Z -> option Z;
  (** [jwt.sign({ userId }, secret, { expiresIn: '30d' })] at [now]. *)
  jwt_sign : Z -> string -> Z -> string;
  (** [bcrypt.hash(password, saltRounds)]; the salt is the caller's
      randomness. *)
  bcrypt_hash : string -> Z -> string -> string;
  bcrypt_compare : string -> string -> bool;
  (** [stripe.webhooks.constructEvent(body, sig, secret)], [None] when it
      throws. *)
  constructEvent : string -> option string -> string -> option event;
  (** [stripe.customers.create], [stripe.subscriptions.create],
      [stripe.subscriptions.cancel] and [stripe.subscriptions.update]
      with [cancel_at_period_end: true]. *)
  stripe_customers_create : string -> string -> Z -> result stripe_customer;
  stripe_subscriptions_create :
    string -> string -> Z -> result stripe_subscription;
  stripe_subscriptions_cancel : string -> result stripe_subscription;
  stripe_subscriptions_cancel_at_period_end :
    string -> result stripe_subscription;
  (** JavaScript built-ins. *)
  toLowerCase : string -> string;
  trim : string -> string;
  js_length : string -> Z;
  emailRegex_test : string -> bool;
  toLocaleDateString_esES : Z -> string;
  toISOString : Z -> string;
  (** [(cents / 100).toFixed(2)]. *)
  euros_toFixed2 : Z -> string
}.

(** ** SQL statements of the session layer *)

(** [SELECT ... FROM sessions WHERE session_token = $1 AND user_id = $2]. *)
Definition select_sessions_by_token_and_user
  (token : string) (userId : Z) : M (list sessions.row) :=
  fun db =>
    (Ok (filter (fun s => String.eqb (sessions.session_token s) token
                          && (sessions.user_id s =? userId))
                (tbl_sessions db)), db).

(** [DELETE FROM sessions WHERE session_token = $1]. *)
Definition delete_sessions_by_token (token : string) : M unit :=
  modify (set_sessions
            (filter (fun s => negb (String.eqb (sessions.session_token s) token)))).

(** [SELECT ... FROM users WHERE id = $1]. *)
Definition select_users_by_id (userId : Z) : M (list users.row) :=
  fun db => (Ok (filter (fun u => users.id u =? userId) (tbl_users db)), db).

(** [DELETE FROM sessions WHERE expires_at < NOW()]
    ([cleanupExpiredSessions] in database.js). *)
Definition cleanupExpiredSessions (now : Z) : M unit :=
  try_catch
    (modify (set_sessions
               (filter (fun s => negb (sessions.expires_at s <? now)))))
    (fun _ => ret tt).

(** What a middleware does: answer, or call [next()] with [req.userId]. *)
Inductive guard : Type :=
| next (userId : Z)
| reply (r : response).

Section SessionGuard.
Context {ext : External}.
Variable process_env : env.

(** [process.env.JWT_SECRET || 'bizlyticsapp-secret-key-2025']. *)
Definition jwt_secret : string :=
  or_default (JWT_SECRET process_env) "bizlyticsapp-secret-key-2025".

(** [req.headers.authorization?.replace('Bearer ', '')]. *)
Definition bearer_token (authorization : option string) : option string :=
  option_map (remove_first "Bearer ") authorization.

(** [jwt.verify] inside a [try] block. *)
Definition verify (token : string) (now : Z) : M Z :=
  match jwt_verify token jwt_secret now with
  | Some userId => ret userId
  | None => throw JsonWebTokenError
  end.

(** The [requireAuth] middleware (the same text in the users,
    integrations, subscriptions and dashboard routers). The first branch
    is [if (!token)]: a missing header or an empty token. *)
Definition requireAuth (authorization : option string) (now : Z) : M guard :=
  try_catch
    (match bearer_token authorization with
     | None | Some EmptyString => ret (reply (res_error 401 "Token requerido"))
     | Some token =>
         userId <- verify token now ;;
         rows <- select_sessions_by_token_and_user token userId ;;
         match rows with
         | [] => ret (reply (res_error 401 "Sesión inválida"))
         | session :: _ =>
             if now >? sessions.expires_at session then
               delete_sessions_by_token token ;;
               ret (reply (res_error 401 "Sesión expirada"))
             else ret (next userId)
         end
     end)
    (fun _ => ret (reply (res_error 401 "Token inválido"))).

(** The user object of [GET /api/auth/me]. *)
Definition me_body (user : users.row) : json :=
  JObj [("user", JObj [("id", JNum (users.id user));
                       ("email", JStr (users.email user));
                       ("name", JStr (users.name user));
                       ("company_name", json_opt_string (users.company_name user));
                       ("subscription_status", JStr (users.subscription_status user));
                       ("created_at", JNum (users.created_at user))])].

(** [GET /api/auth/me]: the guard is written inline, with its own
    messages, and [jwt.verify] has a [try] of its own. *)
Definition get_auth_me (authorization : option string) (now : Z) : M response :=
  try_catch
    (match bearer_token authorization with
     | None | Some EmptyString => ret (res_error 401 "Token no proporcionado")
     | Some token =>
         match jwt_verify token jwt_secret now with
         | None => ret (res_error 401 "Token inválido")
         | Some userId =>
             rows <- select_sessions_by_token_and_user token userId ;;
             match rows with
             | [] => ret (res_error 401 "Sesión no encontrada")
             | session :: _ =>
                 if now >? sessions.expires_at session then
                   delete_sessions_by_token token ;;
                   ret (res_error 401 "Sesión expirada")
                 else
                   userResult <- select_users_by_id userId ;;
                   match userResult with
                   | [] => ret (res_error 404 "Usuario no encontrado")
                   | user :: _ => ret (res_json (me_body user))
                   end
             end
         end
     end)
    (fun _ => ret (res_error 500 "Error interno del servidor")).

End SessionGuard.

(** ** SQL statements of the billing-event reconciler *)

(** [SELECT id, email, name FROM users WHERE stripe_customer_id = $1]. *)
Definition select_users_by_stripe_customer
  (stripeCustomerId : string) : M (list users.row) :=
  fun db =>
    (Ok (filter (fun u => sql_eq (users.stripe_customer_id u) stripeCustomerId)
                (tbl_users db)), db).

Definition user_exists (userId : Z) (db : DB) : bool :=
  existsb (fun u => users.id u =? userId) (tbl_users db).

Definition subscription_exists (stripeSubscriptionId : string) (db : DB) : bool :=
  existsb (fun s => sql_eq (subscriptions.stripe_subscription_id s)
                           stripeSubscriptionId)
          (tbl_subscriptions db).

(** [INSERT INTO alerts (user_id, alert_type, title, message, severity, data)]:
    [is_read] and [created_at] take their defaults; the foreign key on
    [user_id] is checked. *)
Definition insert_alert
  (userId : Z) (type title message severity : string) (data : option json)
  (now : Z) : M unit :=
  fun db =>
    if user_exists userId db then
      (Ok tt,
       set_alerts
         (fun l => (l ++ [alerts.mk userId type title message severity
                                    false data now])%list) db)
    else (Throw (ForeignKeyViolation "alerts_user_id_fkey"), db).

(** [SET subscription_status = $1 WHERE id = $2] on one row. *)
Definition with_status (status : string) (userId : Z) (u : users.row) : users.row :=
  if users.id u =? userId then
    users.mk (users.id u) (users.email u) (users.password_hash u) (users.name u)
             (users.company_name u) status (users.stripe_customer_id u)
             (users.created_at u) (users.updated_at u)
  else u.

(** [UPDATE users SET subscription_status = $1 WHERE id = $2]. *)
Definition update_users_subscription_status
  (status : string) (userId : Z) : M unit :=
  modify (set_users (map (with_status status userId))).

(** [SET stripe_customer_id = $1 WHERE id = $2] on one row. *)
Definition with_stripe_customer_id
  (customerId : string) (userId : Z) (u : users.row) : users.row :=
  if users.id u =? userId then
    users.mk (users.id u) (users.email u) (users.password_hash u) (users.name u)
             (users.company_name u) (users.subscription_status u)
             (Some customerId) (users.created_at u) (users.updated_at u)
  else u.

(** [UPDATE users SET stripe_customer_id = $1 WHERE id = $2]. *)
Definition update_users_stripe_customer_id
  (customerId : string) (userId : Z) : M unit :=
  modify (set_users (map (with_stripe_customer_id customerId userId))).

(** The [DO UPDATE SET] of the upsert and the [UPDATE subscriptions SET
    status, current_period_start, current_period_end,
    cancel_at_period_end, updated_at] of the update handler assign the
    same columns; [user_id], [plan_type] and [created_at] are kept. *)
Definition overwrite_subscription
  (status : string) (period_start period_end : Z) (cancel : bool) (now : Z)
  (s : subscriptions.row) : subscriptions.row :=
  subscriptions.mk (subscriptions.user_id s)
                   (subscriptions.stripe_subscription_id s)
                   status (subscriptions.plan_type s)
                   period_start period_end cancel
                   (subscriptions.created_at s) now.

(** The same assignment, [WHERE stripe_subscription_id = $5]. *)
Definition overwrite_matching
  (status : string) (period_start period_end : Z) (cancel : bool)
  (stripeSubscriptionId : string) (now : Z) (s : subscriptions.row)
  : subscriptions.row :=
  if sql_eq (subscriptions.stripe_subscription_id s) stripeSubscriptionId
  then overwrite_subscription status period_start period_end cancel now s
  else s.

(** [UPDATE subscriptions SET status = $1, current_period_start = $2,
    current_period_end = $3, cancel_at_period_end = $4,
    updated_at = CURRENT_TIMESTAMP WHERE stripe_subscription_id = $5]. *)
Definition update_subscription_by_stripe_id
  (status : string) (period_start period_end : Z) (cancel : bool)
  (stripeSubscriptionId : string) (now : Z) : M unit :=
  modify (set_subscriptions
            (map (overwrite_matching status period_start period_end cancel
                                     stripeSubscriptionId now))).

(** [INSERT INTO subscriptions (...) VALUES (...)
     ON CONFLICT (stripe_subscription_id) DO UPDATE SET ...]. *)
Definition upsert_subscription
  (userId : Z) (stripeSubscriptionId status planType : string)
  (period_start period_end : Z) (cancel : bool) (now : Z) : M unit :=
  fun db =>
    if subscription_exists stripeSubscriptionId db then
      update_subscription_by_stripe_id status period_start period_end cancel
                                       stripeSubscriptionId now db
    else if user_exists userId db then
      (Ok tt,
       set_subscriptions
         (fun l => (l ++ [subscriptions.mk userId (Some stripeSubscriptionId)
                                           status planType period_start
                                           period_end cancel now now])%list) db)
    else (Throw (ForeignKeyViolation "subscriptions_user_id_fkey"), db).

(** [SET status = 'canceled', updated_at = CURRENT_TIMESTAMP
    WHERE stripe_subscription_id = $1] on one row. *)
Definition mark_canceled
  (stripeSubscriptionId : string) (now : Z) (s : subscriptions.row)
  : subscriptions.row :=
  if sql_eq (subscriptions.stripe_subscription_id s) stripeSubscriptionId then
    subscriptions.mk (subscriptions.user_id s)
                     (subscriptions.stripe_subscription_id s)
                     "canceled" (subscriptions.plan_type s)
                     (subscriptions.current_period_start s)
                     (subscriptions.current_period_end s)
                     (subscriptions.cancel_at_period_end s)
                     (subscriptions.created_at s) now
  else s.

(** [UPDATE subscriptions SET status = 'canceled',
    updated_at = CURRENT_TIMESTAMP WHERE stripe_subscription_id = $1]. *)
Definition cancel_subscription_by_stripe_id
  (stripeSubscriptionId : string) (now : Z) : M unit :=
  modify (set_subscriptions (map (mark_canceled stripeSubscriptionId now))).

(** The integration types of the [IN (...)] list of the deletion handler:
    the ones a free plan does not offer. *)
Definition premium_integration (integration_type : string) : bool :=
  String.eqb integration_type "google_analytics"
  || String.eqb integration_type "gmail".

(** [SET is_active = false WHERE user_id = $1 AND integration_type IN
    ('google_analytics', 'gmail')] on one row. *)
Definition deactivate_if_premium (userId : Z) (i : integrations.row)
  : integrations.row :=
  if (integrations.user_id i =? userId)
     && premium_integration (integrations.integration_type i)
  then integrations.mk (integrations.user_id i)
                       (integrations.integration_type i)
                       (integrations.integration_name i) false
  else i.

(** [UPDATE integrations SET is_active = false
    WHERE user_id = $1 AND integration_type IN ('google_analytics', 'gmail')]. *)
Definition deactivate_premium_integrations (userId : Z) : M unit :=
  modify (set_integrations (map (deactivate_if_premium userId))).

(** [SELECT id FROM users WHERE email = $1 AND stripe_customer_id IS NULL]. *)
Definition select_unbound_users_by_email (email : string) : M (list users.row) :=
  fun db =>
    (Ok (filter (fun u => String.eqb (users.email u) email
                          && match users.stripe_customer_id u with
                             | None => true
                             | Some _ => false
                             end)
                (tbl_users db)), db).

(** ** The webhook consumer ([routes/webhooks.js]) *)

(** What [verifyStripeWebhook] returns: [true] in development mode, the
    constructed event, or [false]. *)
Inductive verification : Type :=
| accepted_unverified
| verified (e : event)
| rejected.

Record webhook_request : Type := mkWebhookRequest {
  stripe_signature : option string;
  raw_body : string
}.

Section Webhooks.
Context {ext : External}.
Variable process_env : env.

Definition verifyStripeWebhook (req : webhook_request) : verification :=
  match STRIPE_WEBHOOK_SECRET process_env with
  | None | Some EmptyString => accepted_unverified
  | Some endpointSecret =>
      match constructEvent (raw_body req) (stripe_signature req) endpointSecret with
      | Some e => verified e
      | None => rejected
      end
  end.

Definition createUserAlert
  (userId : Z) (type title message severity : string) (data : option json)
  (now : Z) : M unit :=
  try_catch (insert_alert userId type title message severity data now)
            (fun _ => ret tt).

Definition getUserByStripeCustomer
  (stripeCustomerId : string) : M (option users.row) :=
  try_catch
    (rows <- select_users_by_stripe_customer stripeCustomerId ;;
     ret (hd_error rows))
    (fun _ => ret None).

(** An object field that [JSON.stringify] drops when it is [undefined]. *)
Definition optional_field (key : string) (v : option string)
  : list (string * json) :=
  match v with
  | Some s => [(key, JStr s)]
  | None => []
  end.

Definition handleSubscriptionCreated
  (subscription : stripe_subscription) (now : Z) : M unit :=
  try_catch
    (user <- getUserByStripeCustomer (sub_customer subscription) ;;
     match user with
     | None => ret tt
     | Some user =>
         upsert_subscription
           (users.id user) (sub_id subscription) (sub_status subscription)
           (or_default (sub_metadata_plan_type subscription) "pro")
           (sub_current_period_start subscription * 1000)
           (sub_current_period_end subscription * 1000)
           (sub_cancel_at_period_end subscription) now ;;
         update_users_subscription_status
           (sub_status subscription) (users.id user) ;;
         createUserAlert
           (users.id user) "subscription_created"
           "¡Bienvenido a BizlyticsApp!"
           ("Tu suscripción "
            ++ or_default (sub_metadata_plan_type subscription) "Pro"
            ++ " está activa. ¡Comienza a conectar tus herramientas!")
           "success"
           (Some (JObj (("subscription_id", JStr (sub_id subscription))
                        :: optional_field "plan"
                             (sub_metadata_plan_type subscription))))
           now
     end)
    (fun _ => ret tt).

(** Title, message and severity of the alert of an update. *)
Definition updated_alert_text
  (subscription : stripe_subscription) : string * string * string :=
  if sub_cancel_at_period_end subscription then
    ("Suscripción Programada para Cancelación",
     "Tu suscripción se cancelará el "
     ++ toLocaleDateString_esES (sub_current_period_end subscription * 1000)
     ++ ". Puedes reactivarla en cualquier momento.",
     "warning")
  else if String.eqb (sub_status subscription) "active" then
    ("Suscripción Reactivada",
     "¡Genial! Tu suscripción está activa nuevamente.",
     "success")
  else
    ("Suscripción Actualizada",
     "Tu suscripción ha sido actualizada exitosamente.",
     "info").

Definition handleSubscriptionUpdated
  (subscription : stripe_subscription) (now : Z) : M unit :=
  try_catch
    (user <- getUserByStripeCustomer (sub_customer subscription) ;;
     match user with
     | None => ret tt
     | Some user =>
         update_subscription_by_stripe_id
           (sub_status subscription)
           (sub_current_period_start subscription * 1000)
           (sub_current_period_end subscription * 1000)
           (sub_cancel_at_period_end subscription)
           (sub_id subscription) now ;;
         update_users_subscription_status
           (sub_status subscription) (users.id user) ;;
         let '(alertTitle, alertMessage, alertSeverity) :=
           updated_alert_text subscription in
         createUserAlert
           (users.id user) "subscription_updated"
           alertTitle alertMessage alertSeverity
           (Some (JObj [("subscription_id", JStr (sub_id subscription));
                        ("status", JStr (sub_status subscription))]))
           now
     end)
    (fun _ => ret tt).

Definition handleSubscriptionDeleted
  (subscription : stripe_subscription) (now : Z) : M unit :=
  try_catch
    (user <- getUserByStripeCustomer (sub_customer subscription) ;;
     match user with
     | None => ret tt
     | Some user =>
         cancel_subscription_by_stripe_id (sub_id subscription) now ;;
         update_users_subscription_status "free" (users.id user) ;;
         deactivate_premium_integrations (users.id user) ;;
         createUserAlert
           (users.id user) "subscription_canceled"
           "Suscripción Cancelada"
           "Tu suscripción ha sido cancelada. Puedes seguir usando las funciones básicas o reactivar tu plan en cualquier momento."
           "warning"
           (Some (JObj [("subscription_id", JStr (sub_id subscription))]))
           now
     end)
    (fun _ => ret tt).

Definition handlePaymentSucceeded (invoice : stripe_invoice) (now : Z) : M unit :=
  try_catch
    (user <- getUserByStripeCustomer (inv_customer invoice) ;;
     match user with
     | None => ret tt
     | Some user =>
         createUserAlert
           (users.id user) "payment_succeeded"
           "Pago Procesado Exitosamente"
           ("Tu pago de €" ++ euros_toFixed2 (inv_amount_paid invoice)
            ++ " ha sido procesado. ¡Gracias por tu confianza!")
           "success"
           (Some (JObj [("invoice_id", JStr (inv_id invoice));
                        ("amount", JHundredths (inv_amount_paid invoice));
                        ("currency", JStr (inv_currency invoice))]))
           now
     end)
    (fun _ => ret tt).

Definition handlePaymentFailed (invoice : stripe_invoice) (now : Z) : M unit :=
  try_catch
    (user <- getUserByStripeCustomer (inv_customer invoice) ;;
     match user with
     | None => ret tt
     | Some user =>
         createUserAlert
           (users.id user) "payment_failed"
           "Problema con el Pago"
           ("No pudimos procesar tu pago de €"
            ++ euros_toFixed2 (inv_amount_due invoice)
            ++ ". Por favor, actualiza tu método de pago para continuar con tu suscripción.")
           "error"
           (Some (JObj [("invoice_id", JStr (inv_id invoice));
                        ("amount", JHundredths (inv_amount_due invoice));
                        ("currency", JStr (inv_currency invoice))]))
           now
     end)
    (fun _ => ret tt).

(** [new Date(subscription.trial_end * 1000)]; a [null] trial end
    multiplies to 0. *)
Definition trialEndDate (subscription : stripe_subscription) : Z :=
  match sub_trial_end subscription with
  | Some t => t * 1000
  | None => 0
  end.

Definition handleTrialWillEnd
  (subscription : stripe_subscription) (now : Z) : M unit :=
  try_catch
    (user <- getUserByStripeCustomer (sub_customer subscription) ;;
     match user with
     | None => ret tt
     | Some user =>
         createUserAlert
           (users.id user) "trial_ending"
           "Tu Prueba Gratuita Termina Pronto"
           ("Tu período de prueba gratuita termina el "
            ++ toLocaleDateString_esES (trialEndDate subscription)
            ++ ". Asegúrate de tener un método de pago configurado para continuar sin interrupciones.")
           "warning"
           (Some (JObj [("subscription_id", JStr (sub_id subscription));
                        ("trial_end",
                         JStr (toISOString (trialEndDate subscription)))]))
           now
     end)
    (fun _ => ret tt).

Definition handleCustomerCreated (customer : stripe_customer) : M unit :=
  try_catch
    (if truthy (cus_email customer) then
       userResult <- select_unbound_users_by_email
                       (or_default (cus_email customer) "") ;;
       match userResult with
       | [] => ret tt
       | user :: _ =>
           update_users_stripe_customer_id (cus_id customer) (users.id user)
       end
     else ret tt)
    (fun _ => ret tt).

(** The [switch (event.type)] of the dispatcher. *)
Definition dispatch (e : event) (now : Z) : M unit :=
  match e with
  | customer_subscription_created o => handleSubscriptionCreated o now
  | customer_subscription_updated o => handleSubscriptionUpdated o now
  | customer_subscription_deleted o => handleSubscriptionDeleted o now
  | invoice_payment_succeeded o => handlePaymentSucceeded o now
  | invoice_payment_failed o => handlePaymentFailed o now
  | customer_subscription_trial_will_end o => handleTrialWillEnd o now
  | customer_created o => handleCustomerCreated o
  | unhandled _ => ret tt
  end.

(** [POST /api/webhooks/stripe]. In development mode [event] is [true],
    whose [type] is [undefined]: the [switch] takes its [default]. *)
Definition post_webhooks_stripe (req : webhook_request) (now : Z) : M response :=
  try_catch
    (match verifyStripeWebhook req with
     | rejected => ret (res_error 400 "Webhook verification failed")
     | v =>
         if negb (truthy (STRIPE_SECRET_KEY process_env)) then
           ret (res_json (JObj [("received", JBool true);
                                ("mode", JStr "development")]))
         else
           match v with
           | verified e => dispatch e now
           | _ => ret tt
           end ;;
           ret (res_json (JObj [("received", JBool true)]))
     end)
    (fun _ => ret (res_error 500 "Error interno del servidor")).

End Webhooks.

(** ** Entitlement read paths *)

(** [ORDER BY created_at DESC LIMIT 1]: the row created last, the first
    such row in storage order when several share that instant. *)
Fixpoint most_recent (rows : list subscriptions.row) : option subscriptions.row :=
  match rows with
  | [] => None
  | r :: rest =>
      match most_recent rest with
      | None => Some r
      | Some m =>
          if subscriptions.created_at m >? subscriptions.created_at r
          then Some m else Some r
      end
  end.

(** The statuses of the [IN (...)] list of [GET /api/subscriptions/current]. *)
Definition active_like (status : string) : bool :=
  String.eqb status "active" || String.eqb status "trialing"
  || String.eqb status "past_due".

Record user_stats : Type := mkUserStats {
  active_integrations : Z;
  unread_alerts : Z;
  subscription_plan : string;
  subscription_status : string
}.

(** [getUserStats] in database.js. Its third query is
    [SELECT plan_type, status FROM subscriptions WHERE user_id = $1
     ORDER BY created_at DESC LIMIT 1]. *)
Definition getUserStats (userId : Z) : M user_stats :=
  try_catch
    (db <- get_db ;;
     let integrations_count :=
       Z.of_nat (List.length (filter (fun i => (integrations.user_id i =? userId)
                                          && integrations.is_active i)
                                (tbl_integrations db))) in
     let alerts_count :=
       Z.of_nat (List.length (filter (fun a => (alerts.user_id a =? userId)
                                          && negb (alerts.is_read a))
                                (tbl_alerts db))) in
     let subscription :=
       most_recent (filter (fun s => subscriptions.user_id s =? userId)
                           (tbl_subscriptions db)) in
     ret (mkUserStats
            integrations_count alerts_count
            (or_default (option_map subscriptions.plan_type subscription) "free")
            (or_default (option_map subscriptions.status subscription)
                        "inactive")))
    (fun e => throw e).

(** The join of the dashboard routes (overview, analytics, kpis, insights,
    export):
    [SELECT ..., COALESCE(s.plan_type, 'free') as plan_type FROM users u
     LEFT JOIN subscriptions s ON u.id = s.user_id AND s.status = 'active'
     WHERE u.id = $1]. Each result row pairs the user with a plan type. *)
Definition select_user_with_active_plan
  (userId : Z) : M (list (users.row * string)) :=
  fun db =>
    (Ok (flat_map
           (fun u =>
              match filter (fun s => (subscriptions.user_id s =? users.id u)
                                     && String.eqb (subscriptions.status s) "active")
                           (tbl_subscriptions db) with
              | [] => [(u, "free")]
              | joined => map (fun s => (u, subscriptions.plan_type s)) joined
              end)
           (filter (fun u => users.id u =? userId) (tbl_users db))), db).

(** [userResult.rows[0].plan_type] of the dashboard routes, when the user
    row exists. *)
Definition dashboard_plan_type (userId : Z) : M (option string) :=
  rows <- select_user_with_active_plan userId ;;
  ret (option_map snd (hd_error rows)).

(** The query of [GET /api/subscriptions/current]:
    [WHERE s.user_id = $1 AND s.status IN ('active', 'trialing', 'past_due')
     ORDER BY s.created_at DESC LIMIT 1] over the join with the owner. *)
Definition select_current_subscription
  (userId : Z) : M (option subscriptions.row) :=
  fun db =>
    (Ok (most_recent
           (filter (fun s => (subscriptions.user_id s =? userId)
                             && active_like (subscriptions.status s)
                             && user_exists (subscriptions.user_id s) db)
                   (tbl_subscriptions db))), db).

(** [limits.available_types] of [GET /api/integrations/limits]: the
    default limits, which a user without an active Pro or Business plan
    keeps, and the limits of those two plans. *)
Definition free_available_types : list string := ["stripe"].

Definition paid_available_types : list string :=
  ["stripe"; "google_analytics"; "gmail"].

(** ** SQL statements of the account and subscription routes *)

(** [SELECT ... FROM users WHERE email = $1]. *)
Definition select_users_by_email (email : string) : M (list users.row) :=
  fun db => (Ok (filter (fun u => String.eqb (users.email u) email)
                        (tbl_users db)), db).

(** [INSERT INTO users (email, password_hash, name, company_name,
    subscription_status) VALUES (...) RETURNING ...]: the id comes from
    the sequence, which advances whether or not the row is accepted;
    [email] is unique and [id] is the primary key. *)
Definition insert_user
  (email passwordHash name : string) (company_name : option string)
  (subscription_status : string) (now : Z) : M users.row :=
  fun db =>
    let new_id := users_id_seq db in
    let db1 := set_users_id_seq (new_id + 1) db in
    if existsb (fun u => String.eqb (users.email u) email) (tbl_users db) then
      (Throw (UniqueViolation "users_email_key"), db1)
    else if user_exists new_id db then
      (Throw (UniqueViolation "users_pkey"), db1)
    else
      let user := users.mk new_id email passwordHash name company_name
                           subscription_status None now now in
      (Ok user, set_users (fun l => (l ++ [user])%list) db1).

(** [INSERT INTO sessions (user_id, session_token, expires_at)]. *)
Definition insert_session
  (userId : Z) (token : string) (expiresAt now : Z) : M unit :=
  fun db =>
    if existsb (fun s => String.eqb (sessions.session_token s) token)
               (tbl_sessions db) then
      (Throw (UniqueViolation "sessions_session_token_key"), db)
    else if user_exists userId db then
      (Ok tt,
       set_sessions
         (fun l => (l ++ [sessions.mk userId token expiresAt now])%list) db)
    else (Throw (ForeignKeyViolation "sessions_user_id_fkey"), db).

(** [SET password_hash = $1, updated_at = CURRENT_TIMESTAMP WHERE id = $2]
    on one row. *)
Definition with_password_hash
  (passwordHash : string) (userId now : Z) (u : users.row) : users.row :=
  if users.id u =? userId then
    users.mk (users.id u) (users.email u) passwordHash (users.name u)
             (users.company_name u) (users.subscription_status u)
             (users.stripe_customer_id u) (users.created_at u) now
  else u.

(** [UPDATE users SET password_hash = $1, updated_at = CURRENT_TIMESTAMP
    WHERE id = $2]. *)
Definition update_users_password_hash
  (passwordHash : string) (userId now : Z) : M unit :=
  modify (set_users (map (with_password_hash passwordHash userId now))).

(** [SET name = $1, company_name = $2, updated_at = CURRENT_TIMESTAMP
    WHERE id = $3] on one row. *)
Definition with_profile
  (name : string) (company_name : option string) (userId now : Z)
  (u : users.row) : users.row :=
  if users.id u =? userId then
    users.mk (users.id u) (users.email u) (users.password_hash u)
             name company_name (users.subscription_status u)
             (users.stripe_customer_id u) (users.created_at u) now
  else u.

(** [UPDATE users SET name = $1, company_name = $2,
    updated_at = CURRENT_TIMESTAMP WHERE id = $3 RETURNING ...]. *)
Definition update_users_profile
  (name : string) (company_name : option string) (userId now : Z)
  : M (list users.row) :=
  fun db =>
    (Ok (map (with_profile name company_name userId now)
             (filter (fun u => users.id u =? userId) (tbl_users db))),
     set_users (map (with_profile name company_name userId now)) db).



(** [SELECT stripe_subscription_id FROM subscriptions
    WHERE user_id = $1 AND status IN ('active', 'trialing')]. *)
Definition select_cancellable_subscriptions
  (userId : Z) : M (list subscriptions.row) :=
  fun db =>
    (Ok (filter (fun s => (subscriptions.user_id s =? userId)
                          && (String.eqb (subscriptions.status s) "active"
                              || String.eqb (subscriptions.status s) "trialing"))
                (tbl_subscriptions db)), db).

(** [UPDATE subscriptions SET status = $1, cancel_at_period_end = $2,
    updated_at = CURRENT_TIMESTAMP WHERE stripe_subscription_id = $3];
    a [NULL] reference matches no row. *)
Definition update_subscription_cancellation
  (status : string) (cancel : bool) (stripeSubscriptionId : option string)
  (now : Z) : M unit :=
  modify (set_subscriptions
            (map (fun s =>
                    if match stripeSubscriptionId with
                       | Some ref => sql_eq (subscriptions.stripe_subscription_id s) ref
                       | None => false
                       end
                    then subscriptions.mk
                           (subscriptions.user_id s)
                           (subscriptions.stripe_subscription_id s)
                           status (subscriptions.plan_type s)
                           (subscriptions.current_period_start s)
                           (subscriptions.current_period_end s)
                           cancel (subscriptions.created_at s) now
                    else s))).



(** ** Account routes ([routes/auth.js], users router) *)

(** The string behind a request field that was tested truthy. *)
Definition field (v : option string) : string := or_default v "".

(** [v || null]. *)
Definition or_null (v : option string) : option string :=
  if truthy v then v else None.

Section Routes.
Context {ext : External}.
Variable process_env : env.

(** [generateToken]. *)
Definition generateToken (userId now : Z) : string :=
  jwt_sign userId (jwt_secret process_env) now.

(** Thirty days, in milliseconds. *)
Definition session_lifetime : Z := 30 * 24 * 60 * 60 * 1000.

Definition account_body
  (message : string) (user : users.row) (more : list (string * json))
  (token : string) : json :=
  JObj [("message", JStr message);
        ("user", JObj ([("id", JNum (users.id user));
                        ("email", JStr (users.email user));
                        ("name", JStr (users.name user));
                        ("company_name",
                         json_opt_string (users.company_name user));
                        ("subscription_status",
                         JStr (users.subscription_status user))] ++ more)%list);
        ("token", JStr token)].

(** [POST /api/auth/register]. *)
Definition post_auth_register
  (email password name company_name : option string) (salt : string)
  (now : Z) : M response :=
  try_catch
    (if negb (truthy email && truthy password && truthy name) then
       ret (res_error 400 "Email, contraseña y nombre son requeridos")
     else if negb (emailRegex_test (field email)) then
       ret (res_error 400 "Email no válido")
     else if js_length (field password) <? 6 then
       ret (res_error 400 "La contraseña debe tener al menos 6 caracteres")
     else
       existingUser <- select_users_by_email (toLowerCase (field email)) ;;
       match existingUser with
       | _ :: _ => ret (res_error 409 "Ya existe un usuario con este email")
       | [] =>
           let passwordHash := bcrypt_hash (field password) 12 salt in
           user <- insert_user (toLowerCase (field email)) passwordHash
                               (field name) (or_null company_name) "free" now ;;
           let token := generateToken (users.id user) now in
           insert_session (users.id user) token (now + session_lifetime) now ;;
           ret (mkResponse 201
                  (account_body "Usuario registrado exitosamente" user
                                [("created_at", JNum (users.created_at user))]
                                token))
       end)
    (fun _ => ret (res_error 500 "Error interno del servidor")).

(** [POST /api/auth/login]. *)
Definition post_auth_login (email password : option string) (now : Z)
  : M response :=
  try_catch
    (if negb (truthy email && truthy password) then
       ret (res_error 400 "Email y contraseña son requeridos")
     else
       userResult <- select_users_by_email (toLowerCase (field email)) ;;
       match userResult with
       | [] => ret (res_error 401 "Email o contraseña incorrectos")
       | user :: _ =>
           if negb (bcrypt_compare (field password) (users.password_hash user))
           then ret (res_error 401 "Email o contraseña incorrectos")
           else
             let token := generateToken (users.id user) now in
             insert_session (users.id user) token (now + session_lifetime) now ;;
             ret (res_json (account_body "Login exitoso" user [] token))
       end)
    (fun _ => ret (res_error 500 "Error interno del servidor")).

(** [POST /api/auth/logout]. *)
Definition post_auth_logout (authorization : option string) : M response :=
  try_catch
    ((if truthy (bearer_token authorization) then
        delete_sessions_by_token (field (bearer_token authorization))
      else ret tt) ;;
     ret (res_json (JObj [("message", JStr "Logout exitoso")])))
    (fun _ => ret (res_error 500 "Error interno del servidor")).

(** [POST /api/auth/change-password]: the token is verified, the session
    table is not consulted. *)
Definition post_auth_change_password
  (authorization currentPassword newPassword : option string) (salt : string)
  (now : Z) : M response :=
  try_catch
    (if negb (truthy (bearer_token authorization)) then
       ret (res_error 401 "Token no proporcionado")
     else if negb (truthy currentPassword && truthy newPassword) then
       ret (res_error 400 "Contraseña actual y nueva son requeridas")
     else if js_length (field newPassword) <? 6 then
       ret (res_error 400 "La nueva contraseña debe tener al menos 6 caracteres")
     else
       match jwt_verify (field (bearer_token authorization))
                        (jwt_secret process_env) now with
       | None => ret (res_error 401 "Token inválido")
       | Some userId =>
           userResult <- select_users_by_id userId ;;
           match userResult with
           | [] => ret (res_error 404 "Usuario no encontrado")
           | user :: _ =>
               if negb (bcrypt_compare (field currentPassword)
                                       (users.password_hash user))
               then ret (res_error 401 "Contraseña actual incorrecta")
               else
                 let newPasswordHash :=
                   bcrypt_hash (field newPassword) 12 salt in
                 update_users_password_hash newPasswordHash userId now ;;
                 ret (res_json
                        (JObj [("message",
                                JStr "Contraseña actualizada exitosamente")]))
           end
       end)
    (fun _ => ret (res_error 500 "Error interno del servidor")).

(** A route behind [requireAuth]: the handler runs when the guard calls
    [next()]. *)
Definition guarded
  (authorization : option string) (now : Z) (handler : Z -> M response)
  : M response :=
  g <- requireAuth process_env authorization now ;;
  match g with
  | reply r => ret r
  | next userId => handler userId
  end.

(** [PUT /api/users/profile]. *)
Definition put_users_profile
  (authorization name company_name : option string) (now : Z) : M response :=
  guarded authorization now (fun userId =>
    try_catch
      (if negb (truthy name) || (js_length (trim (field name)) =? 0) then
         ret (res_error 400 "El nombre es requerido")
       else if js_length (field name) >? 255 then
         ret (res_error 400 "El nombre es demasiado largo")
       else if truthy company_name && (js_length (field company_name) >? 255) then
         ret (res_error 400 "El nombre de empresa es demasiado largo")
       else
         updateResult <- update_users_profile
                           (trim (field name))
                           (or_null (option_map trim company_name))
                           userId now ;;
         match updateResult with
         | [] => ret (res_error 404 "Usuario no encontrado")
         | user :: _ =>
             ret (res_json
                    (JObj [("message", JStr "Perfil actualizado exitosamente");
                           ("user",
                            JObj [("id", JNum (users.id user));
                                  ("email", JStr (users.email user));
                                  ("name", JStr (users.name user));
                                  ("company_name",
                                   json_opt_string (users.company_name user));
                                  ("subscription_status",
                                   JStr (users.subscription_status user));
                                  ("updated_at", JNum (users.updated_at user))])]))
         end)
      (fun _ => ret (res_error 500 "Error interno del servidor"))).


(** ** Subscription-management routes (subscriptions router) *)

(** Lifting an answer of the billing processor's API into a handler. *)
Definition await {A} (r : result A) : M A :=
  match r with
  | Ok a => ret a
  | Throw e => throw e
  end.


(** [DELETE /api/subscriptions/cancel]. *)
Definition delete_subscriptions_cancel
  (authorization : option string) (immediate : bool) (now : Z) : M response :=
  guarded authorization now (fun userId =>
    try_catch
      (if negb (truthy (STRIPE_SECRET_KEY process_env)) then
         ret (mkResponse 503
                (JObj [("error", JStr "Sistema de pagos no configurado");
                       ("code", JStr "STRIPE_NOT_CONFIGURED")]))
       else
         subscriptionResult <- select_cancellable_subscriptions userId ;;
         match subscriptionResult with
         | [] => ret (res_error 404 "No tienes una suscripción activa")
         | row :: _ =>
             let stripeSubscriptionId :=
               subscriptions.stripe_subscription_id row in
             subscription <-
               await (if immediate
                      then stripe_subscriptions_cancel
                             (field stripeSubscriptionId)
                      else stripe_subscriptions_cancel_at_period_end
                             (field stripeSubscriptionId)) ;;
             update_subscription_cancellation
               (sub_status subscription)
               (sub_cancel_at_period_end subscription)
               stripeSubscriptionId now ;;
             (if immediate
              then update_users_subscription_status "free" userId
              else ret tt) ;;
             ret (res_json
                    (JObj [("message",
                            JStr (if immediate
                                  then "Suscripción cancelada inmediatamente"
                                  else "Suscripción se cancelará al final del período"));
                           ("subscription",
                            JObj [("id", JStr (sub_id subscription));
                                  ("status", JStr (sub_status subscription));
                                  ("cancel_at_period_end",
                                   JBool (sub_cancel_at_period_end subscription));
                                  ("current_period_end",
                                   JStr (toISOString
                                           (sub_current_period_end subscription
                                            * 1000)))])]))
         end)
      (fun _ => ret (res_error 500 "Error interno del servidor"))).

End Routes.

(** ** The account operations as one step function *)



(** ** Specification vocabulary *)

(** The four ways the guard refuses a request, as the answers of
    [requireAuth] and of [GET /api/auth/me]. *)
Inductive auth_error : Type :=
| MissingToken
| InvalidToken
| UnknownSession
| ExpiredSession.

Definition requireAuth_answer (e : auth_error) : response :=
  match e with
  | MissingToken => res_error 401 "Token requerido"
  | InvalidToken => res_error 401 "Token inválido"
  | UnknownSession => res_error 401 "Sesión inválida"
  | ExpiredSession => res_error 401 "Sesión expirada"
  end.

Definition me_answer (e : auth_error) : response :=
  match e with
  | MissingToken => res_error 401 "Token no proporcionado"
  | InvalidToken => res_error 401 "Token inválido"
  | UnknownSession => res_error 401 "Sesión no encontrada"
  | ExpiredSession => res_error 401 "Sesión expirada"
  end.

(** The [UNIQUE] constraint on [sessions.session_token]. *)
Definition unique_session_tokens (db : DB) : Prop :=
  NoDup (map sessions.session_token (tbl_sessions db)).






(** The user a handler resolves from a billing customer reference: the
    first row of [getUserByStripeCustomer]'s query. *)
Definition resolves_to (c : string) (db : DB) (u : users.row) : Prop :=
  hd_error (filter (fun x => sql_eq (users.stripe_customer_id x) c)
                   (tbl_users db)) = Some u.


(** The billing customer reference by which a handler resolves its user;
    [customer.created] resolves by email and unhandled kinds resolve
    nothing. *)
Definition customer_reference (e : event) : option string :=
  match e with
  | customer_subscription_created o => Some (sub_customer o)
  | customer_subscription_updated o => Some (sub_customer o)
  | customer_subscription_deleted o => Some (sub_customer o)
  | invoice_payment_succeeded o => Some (inv_customer o)
  | invoice_payment_failed o => Some (inv_customer o)
  | customer_subscription_trial_will_end o => Some (sub_customer o)
  | customer_created _ => None
  | unhandled _ => None
  end.

(** No user carries the billing customer reference [c]. *)
Definition unresolvable (c : string) (db : DB) : Prop :=
  forall u, In u (tbl_users db) -> users.stripe_customer_id u <> Some c.

(** An event the reconciler drops: its user cannot be resolved, or its
    kind is not one the dispatcher handles. *)
Definition soft_miss_or_unrecognized (e : event) (db : DB) : Prop :=
  (exists c, customer_reference e = Some c /\ unresolvable c db)
  \/ (exists ty, e = unhandled ty).

Section SessionVocabulary.
Context {ext : External}.
Variable process_env : env.


(** The guard lets the request through as [userId]. *)
Definition authenticated_as
  (authorization : option string) (now : Z) (db : DB) (userId : Z) : Prop :=
  reply_of (requireAuth process_env authorization now db) = Ok (next userId).


End SessionVocabulary.

(** ** Test doubles for the external collaborators *)

Module Fixture.

Definition sub_1 : stripe_subscription :=
  mkStripeSubscription "sub_1" "cus_1" "trialing" (Some "pro")
                       1700000000 1702592000 false (Some 1701209600)
                       (Some "pi_secret").

Definition customer_new : stripe_customer :=
  mkStripeCustomer "cus_new" (Some "b@x.com").

(** The token of user [n] is ["token-n"], for the users 1 to 3, and every
    token stops verifying at instant 1000000; a webhook body is accepted
    when its signature is ["good"]. *)
Definition ext : External := {|
  jwt_verify := fun token _ now =>
    if 1000000 <=? now then None
    else if String.eqb token "token-1" then Some 1
    else if String.eqb token "token-2" then Some 2
    else if String.eqb token "token-3" then Some 3 else None;
  jwt_sign := fun userId _ _ =>
    if userId =? 1 then "token-1"
    else if userId =? 2 then "token-2"
    else if userId =? 3 then "token-3" else "token";
  bcrypt_hash := fun password _ _ => "hash:" ++ password;
  bcrypt_compare := fun password hash => String.eqb ("hash:" ++ password) hash;
  constructEvent := fun body sig _ =>
    match sig with
    | Some "good" =>
        if String.eqb body "customer.created" then Some (customer_created customer_new)
        else if String.eqb body "customer.subscription.created"
             then Some (customer_subscription_created sub_1)
             else Some (unhandled body)
    | _ => None
    end;
  stripe_customers_create := fun _ _ _ => Ok (mkStripeCustomer "cus_1" None);
  stripe_subscriptions_create := fun _ _ _ => Ok sub_1;
  stripe_subscriptions_cancel := fun _ =>
    Ok (mkStripeSubscription "sub_1" "cus_1" "canceled" (Some "pro")
                             1700000000 1702592000 false None None);
  stripe_subscriptions_cancel_at_period_end :=
    fun _ => Throw (StripeError "api_error" "down");
  toLowerCase := fun s => s;
  trim := fun s => s;
  js_length := fun s => Z.of_nat (String.length s);
  emailRegex_test := fun _ => true;
  toLocaleDateString_esES := fun _ => "1/1/2025";
  toISOString := fun _ => "2025-01-01T00:00:00.000Z";
  euros_toFixed2 := fun _ => "9.95"
|}.

Definition process_env : env :=
  mkEnv None (Some "sk_test") (Some "whsec_test").

Definition alice : users.row :=
  users.mk 1 "a@x.com" "hash:secret1" "Alice" None "free" (Some "cus_1") 10 10.

Definition bob : users.row :=
  users.mk 2 "b@x.com" "hash:secret2" "Bob" None "free" None 20 20.

Definition session_alice : sessions.row := sessions.mk 1 "token-1" 1000 100.


Definition db0 : DB := mkDB [alice; bob] 3 [] [] [] [session_alice].


Definition sub_row_1 : subscriptions.row :=
  subscriptions.mk 1 (Some "sub_1") "trialing" "pro" 0 0 false 50 50.

Definition sub_row_canceled : subscriptions.row :=
  subscriptions.mk 1 (Some "sub_0") "canceled" "pro" 0 0 false 40 45.

Definition gmail_alice : integrations.row :=
  integrations.mk 1 "gmail" "Gmail" true.

Definition db1 : DB :=
  mkDB [alice; bob] 3 [sub_row_1] [gmail_alice] [] [session_alice].

(** A store where nobody carries a billing customer reference. *)
Definition db_unbound : DB := mkDB [bob] 3 [] [] [] [].

(** A store whose only subscription, a Pro plan, is canceled. *)
Definition db_canceled : DB :=
  mkDB [alice; bob] 3 [sub_row_canceled] [] [] [session_alice].

Definition signed (body : string) : webhook_request :=
  mkWebhookRequest (Some "good") body.

Definition forged (body : string) : webhook_request :=
  mkWebhookRequest (Some "forged") body.

End Fixture.

(** ** Further routes of the users and integrations routers *)

(** [SET is_read = true WHERE user_id = $1 AND is_read = false] on one
    row. *)
Definition mark_read (userId : Z) (a : alerts.row) : alerts.row :=
  if (alerts.user_id a =? userId) && negb (alerts.is_read a) then
    alerts.mk (alerts.user_id a) (alerts.alert_type a) (alerts.title a)
              (alerts.message a) (alerts.severity a) true (alerts.data a)
              (alerts.created_at a)
  else a.

(** [UPDATE alerts SET is_read = true WHERE user_id = $1 AND is_read = false];
    the value is [rowCount]. *)
Definition update_alerts_read_all (userId : Z) : M Z :=
  fun db =>
    (Ok (Z.of_nat (List.length
                     (filter (fun a => (alerts.user_id a =? userId)
                                       && negb (alerts.is_read a))
                             (tbl_alerts db)))),
     set_alerts (map (mark_read userId)) db).

(** The [limits] object of [GET /api/integrations/limits]. *)
Record integration_limits : Type := mkLimits {
  max_integrations : Z;
  available_types : list string;
  features : list string
}.

Definition default_limits : integration_limits :=
  mkLimits 2 free_available_types ["basic_analytics"].

Definition pro_limits : integration_limits :=
  mkLimits 999 paid_available_types
           ["unlimited_integrations"; "ai_insights"; "smart_alerts"].

Definition business_limits : integration_limits :=
  mkLimits 999 paid_available_types
           ["unlimited_integrations"; "ai_insights"; "smart_alerts";
            "api_access"; "multiple_businesses"].

(** [SELECT plan_type FROM subscriptions WHERE user_id = $1 AND status = $2
    ORDER BY created_at DESC LIMIT 1] with [$2 = 'active']. *)
Definition select_latest_active_plan (userId : Z) : M (option subscriptions.row) :=
  fun db =>
    (Ok (most_recent
           (filter (fun s => (subscriptions.user_id s =? userId)
                             && String.eqb (subscriptions.status s) "active")
                   (tbl_subscriptions db))), db).

(** [SELECT COUNT( * ) FROM integrations WHERE user_id = $1
    AND is_active = true]. *)
Definition count_active_integrations (userId : Z) : M Z :=
  fun db =>
    (Ok (Z.of_nat (List.length
                     (filter (fun i => (integrations.user_id i =? userId)
                                       && integrations.is_active i)
                             (tbl_integrations db)))), db).

Definition limits_body
  (subscriptionStatus : string) (limits : integration_limits) (currentCount : Z)
  : json :=
  JObj [("subscription_status", JStr subscriptionStatus);
        ("limits",
         JObj [("max_integrations", JNum (max_integrations limits));
               ("available_types", JArr (map JStr (available_types limits)));
               ("features", JArr (map JStr (features limits)))]);
        ("current_integrations", JNum currentCount);
        ("can_add_more", JBool (currentCount <? max_integrations limits))].

Section MoreRoutes.
Context {ext : External}.
Variable process_env : env.

(** [PUT /api/users/alerts/read-all]. *)
Definition put_users_alerts_read_all
  (authorization : option string) (now : Z) : M response :=
  guarded process_env authorization now (fun userId =>
    try_catch
      (updated <- update_alerts_read_all userId ;;
       ret (res_json
              (JObj [("message", JStr "Todas las alertas marcadas como leídas");
                     ("updated", JNum updated)])))
      (fun _ => ret (res_error 500 "Error interno del servidor"))).

(** The [limits] that [GET /api/integrations/limits] settles on for a
    user whose [subscription_status] was read. *)
Definition limits_of (subscriptionStatus : string) (userId : Z)
  : M integration_limits :=
  if String.eqb subscriptionStatus "active" then
    subscriptionResult <- select_latest_active_plan userId ;;
    match subscriptionResult with
    | None => ret default_limits
    | Some row =>
        if String.eqb (subscriptions.plan_type row) "pro" then ret pro_limits
        else if String.eqb (subscriptions.plan_type row) "business"
             then ret business_limits
             else ret default_limits
    end
  else ret default_limits.

(** [GET /api/integrations/limits]. *)
Definition get_integrations_limits
  (authorization : option string) (now : Z) : M response :=
  guarded process_env authorization now (fun userId =>
    try_catch
      (userResult <- select_users_by_id userId ;;
       match userResult with
       | [] => ret (res_error 404 "Usuario no encontrado")
       | user :: _ =>
           let subscriptionStatus := users.subscription_status user in
           limits <- limits_of subscriptionStatus userId ;;
           currentCount <- count_active_integrations userId ;;
           ret (res_json (limits_body subscriptionStatus limits currentCount))
       end)
      (fun _ => ret (res_error 500 "Error interno del servidor"))).

End MoreRoutes.

(** ** Further vocabulary *)

(** The space character, which ends the ["Bearer "] scheme. *)
Definition space : Ascii.ascii := Ascii.ascii_of_nat 32.

Fixpoint contains_space (s : string) : bool :=
  match s with
  | EmptyString => false
  | String c s' => Ascii.eqb c space || contains_space s'
  end.


(** The unread alerts of a user, as [getUserStats] counts them. *)
Definition unread_count (userId : Z) (db : DB) : Z :=
  Z.of_nat (List.length (filter (fun a => (alerts.user_id a =? userId)
                                          && negb (alerts.is_read a))
                                (tbl_alerts db))).

(** The columns of a user row that a profile update has no business
    with. *)
Definition account_columns (u : users.row)
  : Z * string * string * string * option string * Z :=
  (users.id u, users.email u, users.password_hash u,
   users.subscription_status u, users.stripe_customer_id u, users.created_at u).


(** The columns of a user row that identify the account and carry its
    credentials and profile. *)
Definition identity_columns (u : users.row)
  : Z * string * string * string * option string * Z :=
  (users.id u, users.email u, users.password_hash u, users.name u,
   users.company_name u, users.created_at u).

(** [d'] has the sessions, the user sequence and the accounts of [d]. *)
Definition same_accounts (d d' : DB) : Prop :=
  tbl_sessions d' = tbl_sessions d
  /\ users_id_seq d' = users_id_seq d
  /\ map identity_columns (tbl_users d') = map identity_columns (tbl_users d).

(** A computation that, from any database, leaves the accounts as they
    were. *)
Definition keeps_accounts {A} (m : M A) : Prop :=
  forall d, same_accounts d (snd (m d)).

(** The active integrations of a user, as the limits route counts them. *)
Definition active_integrations_count (userId : Z) (db : DB) : Z :=
  Z.of_nat (List.length (filter (fun i => (integrations.user_id i =? userId)
                                          && integrations.is_active i)
                                (tbl_integrations db))).

(** ** Further sample data *)

Module Sample.

(** An environment with the API key but without the webhook secret. *)
Definition env_without_webhook_secret : env :=
  mkEnv None (Some "sk_test") None.


(** The reference of [Fixture.sub_1], now active and on another plan. *)
Definition sub_1_business : stripe_subscription :=
  mkStripeSubscription "sub_1" "cus_1" "active" (Some "business")
                       1700000000 1702592000 false None (Some "pi_secret").






Definition alert_unread_1 : alerts.row :=
  alerts.mk 1 "payment_failed" "Problema con el Pago" "..." "error" false None 70.

Definition alert_read_1 : alerts.row :=
  alerts.mk 1 "trial_ending" "Tu Prueba Gratuita Termina Pronto" "..."
            "warning" true None 60.

Definition alert_unread_2 : alerts.row :=
  alerts.mk 2 "payment_succeeded" "Pago Procesado Exitosamente" "..."
            "success" false None 80.

Definition db_alerts : DB :=
  mkDB [Fixture.alice; Fixture.bob] 3 [] []
       [alert_read_1; alert_unread_1; alert_unread_2] [Fixture.session_alice].

(** A user on a trial of the Pro plan. *)
Definition carol : users.row :=
  users.mk 3 "c@x.com" "hash:secret3" "Carol" None "trialing" (Some "cus_3")
           30 30.

Definition session_carol : sessions.row := sessions.mk 3 "token-3" 1000 100.

Definition sub_row_carol : subscriptions.row :=
  subscriptions.mk 3 (Some "sub_3") "trialing" "pro" 0 0 false 70 70.

Definition db_trial : DB :=
  mkDB [Fixture.alice; Fixture.bob; carol] 4 [sub_row_carol] [] []
       [Fixture.session_alice; session_carol].

End Sample.

(** * Properties *)

(** ** Handler-monad and table lemmas *)

Lemma gtb_false_le (a b : Z) : (a >? b) = false <-> a <= b.
Proof. rewrite Z.gtb_ltb. apply Z.ltb_ge. Qed.

Lemma gtb_true_lt (a b : Z) : (a >? b) = true <-> b < a.
Proof. rewrite Z.gtb_ltb. apply Z.ltb_lt. Qed.

Lemma try_catch_ret_never_throws {A} (m : M A) (a : A) (db : DB) :
  exists a', fst (try_catch m (fun _ => ret a) db) = Ok a'.
Proof.
  unfold try_catch, ret. destruct (m db) as [[x | e] db']; simpl; eauto.
Qed.

Lemma filter_token_nil (t : string) (l : list sessions.row) :
  ~ In t (map sessions.session_token l) ->
  filter (fun x => String.eqb (sessions.session_token x) t) l = [].
Proof.
  induction l as [| x l IH]; simpl; intros Hn; [reflexivity |].
  destruct (String.eqb_spec (sessions.session_token x) t) as [E | E].
  - exfalso. apply Hn. left. exact E.
  - apply IH. intros Hin. apply Hn. right. exact Hin.
Qed.


(** Under the uniqueness constraint a token has one row: the table splits
    around it and no other row carries the token. *)
Lemma unique_token_split (s : sessions.row) (l : list sessions.row) :
  NoDup (map sessions.session_token l) -> In s l ->
  exists before after,
    l = (before ++ s :: after)%list
    /\ ~ In (sessions.session_token s) (map sessions.session_token before)
    /\ ~ In (sessions.session_token s) (map sessions.session_token after).
Proof.
  induction l as [| x l IH]; simpl; intros Hnd Hin; [contradiction |].
  inversion Hnd as [| ? ? Hx Hl]; subst.
  destruct Hin as [-> | Hin].
  - exists [], l. repeat split; simpl; auto.
  - destruct (IH Hl Hin) as (b & a & -> & Hb & Ha).
    exists (x :: b), a. repeat split; auto.
    simpl. intros [E | Hin']; [| exact (Hb Hin')].
    apply Hx. rewrite E, map_app. apply in_or_app. right. left. reflexivity.
Qed.

Lemma select_unique_session (s : sessions.row) (l : list sessions.row) (uid : Z) :
  NoDup (map sessions.session_token l) -> In s l ->
  filter (fun x => String.eqb (sessions.session_token x) (sessions.session_token s)
                   && (sessions.user_id x =? uid)) l
  = if sessions.user_id s =? uid then [s] else [].
Proof.
  intros Hnd Hin.
  destruct (unique_token_split s l Hnd Hin) as (b & a & -> & Hb & Ha).
  assert (Hnil : forall r, ~ In (sessions.session_token s)
                             (map sessions.session_token r) ->
            filter (fun x => String.eqb (sessions.session_token x)
                                        (sessions.session_token s)
                             && (sessions.user_id x =? uid)) r = []).
  { induction r as [| x r IH]; simpl; intros Hn; [reflexivity |].
    destruct (String.eqb_spec (sessions.session_token x)
                              (sessions.session_token s)) as [E | E]; simpl.
    - exfalso. apply Hn. left. exact E.
    - apply IH. intros Hr. apply Hn. right. exact Hr. }
  rewrite filter_app. simpl. rewrite (Hnil b Hb), (Hnil a Ha).
  rewrite String.eqb_refl. simpl.
  destruct (sessions.user_id s =? uid); reflexivity.
Qed.



Lemma select_after_delete (t : string) (uid : Z) (l : list sessions.row) :
  filter (fun x => String.eqb (sessions.session_token x) t
                   && (sessions.user_id x =? uid))
         (filter (fun x => negb (String.eqb (sessions.session_token x) t)) l)
  = [].
Proof.
  induction l as [| x l IH]; simpl; [reflexivity |].
  destruct (String.eqb (sessions.session_token x) t) eqn:E; simpl.
  - exact IH.
  - rewrite E. simpl. exact IH.
Qed.

Section GuardProperties.
Context {ext : External}.
Variable process_env : env.

(** The guard, branch by branch. *)
Lemma requireAuth_equation (authorization : option string) (now : Z) (db : DB) :
  requireAuth process_env authorization now db =
  match bearer_token authorization with
  | None | Some EmptyString => (Ok (reply (requireAuth_answer MissingToken)), db)
  | Some token =>
      match jwt_verify token (jwt_secret process_env) now with
      | None => (Ok (reply (requireAuth_answer InvalidToken)), db)
      | Some userId =>
          match filter (fun s => String.eqb (sessions.session_token s) token
                                 && (sessions.user_id s =? userId))
                       (tbl_sessions db) with
          | [] => (Ok (reply (requireAuth_answer UnknownSession)), db)
          | session :: _ =>
              if now >? sessions.expires_at session then
                (Ok (reply (requireAuth_answer ExpiredSession)),
                 set_sessions
                   (filter (fun s => negb (String.eqb (sessions.session_token s)
                                                      token))) db)
              else (Ok (next userId), db)
          end
      end
  end.
Proof.
  unfold requireAuth, try_catch, bind, verify, ret, throw,
    select_sessions_by_token_and_user, delete_sessions_by_token, modify.
  destruct (bearer_token authorization) as [[| c t] |]; try reflexivity.
  destruct (jwt_verify (String c t) (jwt_secret process_env) now); try reflexivity.
  destruct (filter _ (tbl_sessions db)) as [| session rest]; try reflexivity.
  destruct (now >? sessions.expires_at session); reflexivity.
Qed.

Lemma get_auth_me_equation (authorization : option string) (now : Z) (db : DB) :
  get_auth_me process_env authorization now db =
  match bearer_token authorization with
  | None | Some EmptyString => (Ok (me_answer MissingToken), db)
  | Some token =>
      match jwt_verify token (jwt_secret process_env) now with
      | None => (Ok (me_answer InvalidToken), db)
      | Some userId =>
          match filter (fun s => String.eqb (sessions.session_token s) token
                                 && (sessions.user_id s =? userId))
                       (tbl_sessions db) with
          | [] => (Ok (me_answer UnknownSession), db)
          | session :: _ =>
              if now >? sessions.expires_at session then
                (Ok (me_answer ExpiredSession),
                 set_sessions
                   (filter (fun s => negb (String.eqb (sessions.session_token s)
                                                      token))) db)
              else
                match filter (fun u => users.id u =? userId) (tbl_users db) with
                | [] => (Ok (res_error 404 "Usuario no encontrado"), db)
                | user :: _ => (Ok (res_json (me_body user)), db)
                end
          end
      end
  end.
Proof.
  unfold get_auth_me, try_catch, bind, ret,
    select_sessions_by_token_and_user, delete_sessions_by_token,
    select_users_by_id, modify.
  destruct (bearer_token authorization) as [[| c t] |]; try reflexivity.
  destruct (jwt_verify (String c t) (jwt_secret process_env) now); try reflexivity.
  destruct (filter _ (tbl_sessions db)) as [| session rest]; try reflexivity.
  destruct (now >? sessions.expires_at session); try reflexivity.
  destruct (filter _ (tbl_users db)); reflexivity.
Qed.

Lemma truthy_token (token : string) :
  token <> EmptyString -> exists c t, token = String c t.
Proof. destruct token as [| c t]; [congruence | eauto]. Qed.




End GuardProperties.

(** ** The session guard on concrete stores *)

Lemma db0_unique_tokens : unique_session_tokens Fixture.db0.
Proof.
  unfold unique_session_tokens. simpl.
  constructor; [intros [] | constructor].
Qed.










(** ** The reconciler, statement by statement *)

Lemma with_status_id (status : string) (userId : Z) (u : users.row) :
  users.id (with_status status userId u) = users.id u.
Proof. unfold with_status. destruct (users.id u =? userId); reflexivity. Qed.




Lemma update_users_subscription_status_equation
  (status : string) (userId : Z) (db : DB) :
  update_users_subscription_status status userId db
  = (Ok tt, set_users (map (with_status status userId)) db).
Proof. reflexivity. Qed.



Lemma hd_error_filter_In {A} (p : A -> bool) (l : list A) (x : A) :
  hd_error (filter p l) = Some x -> In x l /\ p x = true.
Proof.
  intros H. apply filter_In. destruct (filter p l) as [| y r]; [discriminate |].
  inversion H; subst. left. reflexivity.
Qed.

Lemma user_exists_In (u : users.row) (db : DB) :
  In u (tbl_users db) -> user_exists (users.id u) db = true.
Proof.
  intros Hin. unfold user_exists. apply existsb_exists.
  exists u. split; [exact Hin | apply Z.eqb_refl].
Qed.

Lemma user_exists_with_status (status : string) (userId uid : Z) (db : DB) :
  user_exists uid (set_users (map (with_status status userId)) db)
  = user_exists uid db.
Proof.
  unfold user_exists, set_users. simpl.
  induction (tbl_users db) as [| x l IH]; simpl; [reflexivity |].
  rewrite with_status_id, IH. reflexivity.
Qed.

Lemma unresolvable_filter (c : string) (db : DB) :
  unresolvable c db ->
  filter (fun u => sql_eq (users.stripe_customer_id u) c) (tbl_users db) = [].
Proof.
  unfold unresolvable. induction (tbl_users db) as [| x l IH]; simpl;
    intros H; [reflexivity |].
  destruct (users.stripe_customer_id x) as [c' |] eqn:E; simpl.
  - destruct (String.eqb_spec c' c) as [-> | Hne].
    + exfalso. apply (H x); [left; reflexivity | exact E].
    + apply IH. intros u Hu. apply H. right. exact Hu.
  - apply IH. intros u Hu. apply H. right. exact Hu.
Qed.

(** Reads the appended alert off the final equation of a goal
    [exists a, ... /\ run = (Ok tt, db')]. *)
Ltac pick_alert :=
  unshelve (eexists; repeat (split; [shelve |]); reflexivity); reflexivity.

Section ReconcilerProperties.
Context {ext : External}.
Variable process_env : env.

Lemma getUserByStripeCustomer_equation (c : string) (db : DB) :
  getUserByStripeCustomer c db
  = (Ok (hd_error (filter (fun u => sql_eq (users.stripe_customer_id u) c)
                          (tbl_users db))), db).
Proof. reflexivity. Qed.

Lemma createUserAlert_equation
  (userId : Z) (type title message severity : string) (data : option json)
  (now : Z) (db : DB) :
  createUserAlert userId type title message severity data now db
  = (Ok tt,
     if user_exists userId db then
       set_alerts (fun l => (l ++ [alerts.mk userId type title message severity
                                             false data now])%list) db
     else db).
Proof.
  unfold createUserAlert, try_catch, insert_alert, ret.
  destruct (user_exists userId db); reflexivity.
Qed.

(** A handler that does not resolve its user leaves the store alone. *)
Lemma soft_miss (e : event) (c : string) (now : Z) (db : DB) :
  customer_reference e = Some c -> unresolvable c db ->
  dispatch e now db = (Ok tt, db).
Proof.
  intros Hc Hun. pose proof (unresolvable_filter c db Hun) as Hf.
  destruct e as [o | o | o | o | o | o | o | ty]; simpl in Hc;
    try discriminate; inversion Hc; subst; simpl;
    [ unfold handleSubscriptionCreated | unfold handleSubscriptionUpdated
    | unfold handleSubscriptionDeleted | unfold handlePaymentSucceeded
    | unfold handlePaymentFailed | unfold handleTrialWillEnd ];
    unfold try_catch, bind; rewrite getUserByStripeCustomer_equation, Hf;
    reflexivity.
Qed.

(** No event makes the dispatcher throw: every handler has a [catch]. *)
Lemma dispatch_never_throws (e : event) (now : Z) (db : DB) :
  fst (dispatch e now db) = Ok tt.
Proof.
  assert (H : forall m : M unit, fst (try_catch m (fun _ => ret tt) db) = Ok tt).
  { intros m. unfold try_catch, ret. destruct (m db) as [[[] | x] db']; reflexivity. }
  destruct e; simpl; try apply H. reflexivity.
Qed.

(** The endpoint, once the event is verified and the API key is set. *)
Lemma post_webhooks_stripe_verified
  (req : webhook_request) (e : event) (now : Z) (db : DB) :
  verifyStripeWebhook process_env req = verified e ->
  post_webhooks_stripe process_env req now db
  = if negb (truthy (STRIPE_SECRET_KEY process_env)) then
      (Ok (res_json (JObj [("received", JBool true);
                           ("mode", JStr "development")])), db)
    else (Ok (res_json (JObj [("received", JBool true)])),
          snd (dispatch e now db)).
Proof.
  intros Hv. unfold post_webhooks_stripe, try_catch, bind. rewrite Hv.
  destruct (negb (truthy (STRIPE_SECRET_KEY process_env))); [reflexivity |].
  pose proof (dispatch_never_throws e now db) as Hd.
  destruct (dispatch e now db) as [[[] | x] db']; simpl in Hd;
    [reflexivity | discriminate].
Qed.

(** C3 (as amended). For an event of a kind that resolves its user by the
    billing customer reference (subscription created, updated, deleted,
    payment succeeded, payment failed, trial will end), when no user
    carries that reference the endpoint acknowledges with a 2xx answer and
    the database is exactly as before. *)
Theorem unresolvable_customer_is_dropped
  (req : webhook_request) (e : event) (c : string) (now : Z) (db : DB) :
  verifyStripeWebhook process_env req = verified e ->
  customer_reference e = Some c ->
  unresolvable c db ->
  exists r, post_webhooks_stripe process_env req now db = (Ok r, db)
            /\ acknowledged r.
Proof.
  intros Hv Hc Hun. rewrite (post_webhooks_stripe_verified req e now db Hv).
  rewrite (soft_miss e c now db Hc Hun).
  destruct (negb (truthy (STRIPE_SECRET_KEY process_env)));
    eexists; (split; [reflexivity | unfold acknowledged; simpl; lia]).
Qed.

(** C7 (as amended). With a verification secret configured, an event that
    fails signature verification is answered with status 400, a client
    error and not a 5xx, and the database is exactly as before; a verified
    event that is a soft miss or of an unrecognized kind is acknowledged
    with a 2xx answer, again without any write. *)
Theorem rejected_signature_and_soft_misses
  (req : webhook_request) (now : Z) (db : DB) :
  (truthy (STRIPE_WEBHOOK_SECRET process_env) = true ->
   constructEvent (raw_body req) (stripe_signature req)
                  (field (STRIPE_WEBHOOK_SECRET process_env)) = None ->
   post_webhooks_stripe process_env req now db
   = (Ok (res_error 400 "Webhook verification failed"), db)
   /\ ~ server_error (res_error 400 "Webhook verification failed"))
  /\ (forall e,
        verifyStripeWebhook process_env req = verified e ->
        soft_miss_or_unrecognized e db ->
        exists r, post_webhooks_stripe process_env req now db = (Ok r, db)
                  /\ acknowledged r).
Proof.
  split.
  - intros Hsecret Hfail.
    unfold post_webhooks_stripe, try_catch, verifyStripeWebhook.
    destruct (STRIPE_WEBHOOK_SECRET process_env) as [[| c s] |];
      try discriminate.
    simpl in Hfail. rewrite Hfail. split; [reflexivity |].
    unfold server_error. simpl. lia.
  - intros e Hv Hsoft.
    rewrite (post_webhooks_stripe_verified req e now db Hv).
    assert (Hd : dispatch e now db = (Ok tt, db)).
    { destruct Hsoft as [(c & Hc & Hun) | (ty & ->)].
      - exact (soft_miss e c now db Hc Hun).
      - reflexivity. }
    rewrite Hd.
    destruct (negb (truthy (STRIPE_SECRET_KEY process_env)));
      eexists; (split; [reflexivity | unfold acknowledged; simpl; lia]).
Qed.

(** What the creation handler leaves when its user resolves. *)
Lemma handleSubscriptionCreated_resolved
  (subscription : stripe_subscription) (now : Z) (db : DB) (u : users.row) :
  resolves_to (sub_customer subscription) db u ->
  exists a,
    alerts.user_id a = users.id u
    /\ alerts.alert_type a = "subscription_created"
    /\ alerts.severity a = "success"
    /\ alerts.created_at a = now
    /\ handleSubscriptionCreated subscription now db
       = (Ok tt,
          mkDB (map (with_status (sub_status subscription) (users.id u))
                    (tbl_users db))
               (users_id_seq db)
               (if subscription_exists (sub_id subscription) db then
                  map (overwrite_matching
                         (sub_status subscription)
                         (sub_current_period_start subscription * 1000)
                         (sub_current_period_end subscription * 1000)
                         (sub_cancel_at_period_end subscription)
                         (sub_id subscription) now)
                      (tbl_subscriptions db)
                else
                  (tbl_subscriptions db
                   ++ [subscriptions.mk
                         (users.id u) (Some (sub_id subscription))
                         (sub_status subscription)
                         (or_default (sub_metadata_plan_type subscription) "pro")
                         (sub_current_period_start subscription * 1000)
                         (sub_current_period_end subscription * 1000)
                         (sub_cancel_at_period_end subscription) now now])%list)
               (tbl_integrations db)
               (tbl_alerts db ++ [a])%list
               (tbl_sessions db)).
Proof.
  intros Hres. unfold resolves_to in Hres.
  destruct (hd_error_filter_In _ _ _ Hres) as [Hin _].
  pose proof (user_exists_In u db Hin) as Hex.
  unfold handleSubscriptionCreated, try_catch, bind.
  rewrite getUserByStripeCustomer_equation, Hres.
  unfold upsert_subscription.
  destruct (subscription_exists (sub_id subscription) db) eqn:Hsub.
  - unfold update_subscription_by_stripe_id, modify.
    rewrite update_users_subscription_status_equation.
    rewrite createUserAlert_equation, user_exists_with_status.
    change (user_exists (users.id u) (set_subscriptions _ db))
      with (user_exists (users.id u) db).
    rewrite Hex. pick_alert.
  - rewrite Hex.
    rewrite update_users_subscription_status_equation.
    rewrite createUserAlert_equation, user_exists_with_status.
    change (user_exists (users.id u) (set_subscriptions _ db))
      with (user_exists (users.id u) db).
    rewrite Hex. pick_alert.
Qed.




Lemma status_of_updated_rows
  (status : string) (userId : Z) (l : list users.row) (x : users.row) :
  In x (map (with_status status userId) l) -> users.id x = userId ->
  users.subscription_status x = status.
Proof.
  rewrite in_map_iff. intros (y & <- & _) Hid.
  rewrite with_status_id in Hid. unfold with_status.
  rewrite (proj2 (Z.eqb_eq _ _) Hid). reflexivity.
Qed.
















End ReconcilerProperties.

(** ** The reconciler on concrete stores *)


(** C3, witness: a subscription event for a customer nobody carries. *)
Lemma unresolvable_customer_is_dropped_witness :
  exists r,
    @post_webhooks_stripe Fixture.ext Fixture.process_env
      (Fixture.signed "customer.subscription.created") 5000 Fixture.db_unbound
    = (Ok r, Fixture.db_unbound)
    /\ acknowledged r.
Proof.
  apply (@unresolvable_customer_is_dropped
           Fixture.ext Fixture.process_env
           (Fixture.signed "customer.subscription.created")
           (customer_subscription_created Fixture.sub_1) "cus_1" 5000
           Fixture.db_unbound).
  - reflexivity.
  - reflexivity.
  - intros u [<- | []]. simpl. discriminate.
Defined.

(** C3, counterexample: a verified [customer.created] event whose customer
    reference no user carries is acknowledged, and it writes the [users]
    table: the user with the event's email is bound to the reference. *)
Lemma customer_created_writes_users :
  let req := Fixture.signed "customer.created" in
  let run := @post_webhooks_stripe Fixture.ext Fixture.process_env req 5000
                                   Fixture.db0 in
  @verifyStripeWebhook Fixture.ext Fixture.process_env req
  = verified (customer_created Fixture.customer_new)
  /\ unresolvable (cus_id Fixture.customer_new) Fixture.db0
  /\ reply_of run = Ok (res_json (JObj [("received", JBool true)]))
  /\ users.stripe_customer_id Fixture.bob = None
  /\ tbl_users (db_after run)
     = [Fixture.alice;
        users.mk 2 "b@x.com" "hash:secret2" "Bob" None "free" (Some "cus_new")
                 20 20]
  /\ db_after run <> Fixture.db0.
Proof.
  repeat split.
  - intros u [<- | [<- | []]]; simpl; discriminate.
  - vm_compute. discriminate.
Qed.


(** C7, witness: a forged signature. *)
Lemma rejected_signature_and_soft_misses_witness :
  @post_webhooks_stripe Fixture.ext Fixture.process_env
    (Fixture.forged "customer.subscription.created") 5000 Fixture.db0
  = (Ok (res_error 400 "Webhook verification failed"), Fixture.db0).
Proof.
  apply (proj1 (@rejected_signature_and_soft_misses
                  Fixture.ext Fixture.process_env
                  (Fixture.forged "customer.subscription.created") 5000
                  Fixture.db0)).
  - reflexivity.
  - reflexivity.
Defined.

(** C7, counterexample: with the verification secret configured, an event
    whose signature does not verify is answered with status 400, which is
    not a server-error status. *)
Lemma rejected_signature_is_not_server_error :
  let req := Fixture.forged "customer.subscription.created" in
  truthy (STRIPE_WEBHOOK_SECRET Fixture.process_env) = true
  /\ @verifyStripeWebhook Fixture.ext Fixture.process_env req = rejected
  /\ exists r,
       reply_of (@post_webhooks_stripe Fixture.ext Fixture.process_env req 5000
                                       Fixture.db0) = Ok r
       /\ status r = 400
       /\ ~ server_error r.
Proof.
  repeat split. eexists. repeat split.
  unfold server_error. simpl. lia.
Qed.


(** ** Entitlement read paths *)

Lemma most_recent_nil (rows : list subscriptions.row) :
  most_recent rows = None <-> rows = [].
Proof.
  split; [| intros ->; reflexivity].
  destruct rows as [| r rest]; [reflexivity |]. simpl.
  destruct (most_recent rest) as [m |]; [| discriminate].
  destruct (subscriptions.created_at m >? subscriptions.created_at r);
    discriminate.
Qed.

Lemma most_recent_is_latest (rows : list subscriptions.row) (r : subscriptions.row) :
  most_recent rows = Some r ->
  In r rows
  /\ forall s, In s rows ->
               subscriptions.created_at s <= subscriptions.created_at r.
Proof.
  revert r. induction rows as [| x rest IH]; simpl; intros r H; [discriminate |].
  destruct (most_recent rest) as [m |] eqn:Hm.
  - destruct (IH m eq_refl) as [Hin Hmax].
    destruct (subscriptions.created_at m >? subscriptions.created_at x) eqn:Hc;
      inversion H; subst.
    + apply gtb_true_lt in Hc. split; [right; exact Hin |].
      intros s [<- | Hs]; [lia | apply Hmax; exact Hs].
    + apply gtb_false_le in Hc. split; [left; reflexivity |].
      intros s [<- | Hs]; [lia |]. specialize (Hmax s Hs). lia.
  - inversion H; subst. apply most_recent_nil in Hm. subst rest.
    split; [left; reflexivity |]. intros s [<- | []]. lia.
Qed.

(** C8 (as amended). [getUserStats] reports as [subscription_plan] the plan
    type of the user's most recently created subscription row whatever
    its status, and ['free'] when the user has no row (or that plan is the
    empty string). The dashboard routes read, for an existing user, the
    plan type of a row of that user whose status is exactly ['active'],
    and ['free'] when the user has no such row. *)
Theorem plan_read_paths (userId : Z) (db : DB) :
  (exists stats,
     getUserStats userId db = (Ok stats, db)
     /\ ((forall s, In s (tbl_subscriptions db) ->
                    subscriptions.user_id s <> userId) ->
         subscription_plan stats = "free")
     /\ ((exists s, In s (tbl_subscriptions db)
                    /\ subscriptions.user_id s = userId) ->
         exists r,
           In r (tbl_subscriptions db)
           /\ subscriptions.user_id r = userId
           /\ (forall s, In s (tbl_subscriptions db) ->
                         subscriptions.user_id s = userId ->
                         subscriptions.created_at s <= subscriptions.created_at r)
           /\ subscription_plan stats
              = or_default (Some (subscriptions.plan_type r)) "free"
           /\ subscription_status stats
              = or_default (Some (subscriptions.status r)) "inactive"))
  /\ ((exists u, In u (tbl_users db) /\ users.id u = userId) ->
      exists p,
        dashboard_plan_type userId db = (Ok (Some p), db)
        /\ ((forall s, In s (tbl_subscriptions db) ->
                       subscriptions.user_id s = userId ->
                       subscriptions.status s <> "active") ->
            p = "free")
        /\ ((exists s, In s (tbl_subscriptions db)
                       /\ subscriptions.user_id s = userId
                       /\ subscriptions.status s = "active") ->
            exists r, In r (tbl_subscriptions db)
                      /\ subscriptions.user_id r = userId
                      /\ subscriptions.status r = "active"
                      /\ p = subscriptions.plan_type r)).
Proof.
  split.
  - eexists. split; [reflexivity |]. cbn [subscription_plan subscription_status].
    set (mine := filter (fun s => subscriptions.user_id s =? userId)
                        (tbl_subscriptions db)).
    split.
    + intros Hnone. assert (Hmine : mine = []).
      { subst mine. induction (tbl_subscriptions db) as [| x l IH]; simpl;
          [reflexivity |].
        destruct (Z.eqb_spec (subscriptions.user_id x) userId) as [E | E].
        - exfalso. apply (Hnone x); [left; reflexivity | exact E].
        - apply IH. intros s Hs. apply Hnone. right. exact Hs. }
      rewrite Hmine. reflexivity.
    + intros (s & Hs & Hu).
      destruct (most_recent mine) as [r |] eqn:Hr.
      * destruct (most_recent_is_latest mine r Hr) as [Hin Hmax].
        subst mine. apply filter_In in Hin. destruct Hin as [Hin Hid].
        apply Z.eqb_eq in Hid. exists r. repeat split; auto.
        intros s' Hs' Hu'. apply Hmax. apply filter_In. split; [exact Hs' |].
        apply Z.eqb_eq. exact Hu'.
      * apply most_recent_nil in Hr. exfalso.
        assert (Hin : In s mine).
        { subst mine. apply filter_In. split; [exact Hs |].
          apply Z.eqb_eq. exact Hu. }
        rewrite Hr in Hin. exact Hin.
  - intros (u & Hu & Hid).
    unfold dashboard_plan_type, bind, select_user_with_active_plan, ret.
    destruct (filter (fun x => users.id x =? userId) (tbl_users db))
      as [| u0 rest] eqn:Hf.
    { exfalso. assert (Hin : In u (filter (fun x => users.id x =? userId)
                                          (tbl_users db))).
      { apply filter_In. split; [exact Hu | apply Z.eqb_eq; exact Hid]. }
      rewrite Hf in Hin. exact Hin. }
    assert (Hu0 : users.id u0 = userId).
    { assert (Hin : In u0 (filter (fun x => users.id x =? userId) (tbl_users db)))
        by (rewrite Hf; left; reflexivity).
      apply filter_In in Hin. apply Z.eqb_eq. tauto. }
    cbn [flat_map]. rewrite Hu0.
    set (joined := filter (fun s => (subscriptions.user_id s =? userId)
                                    && String.eqb (subscriptions.status s) "active")
                          (tbl_subscriptions db)).
    assert (Hjoined : forall r, In r joined <->
              In r (tbl_subscriptions db) /\ subscriptions.user_id r = userId
              /\ subscriptions.status r = "active").
    { intros r. subst joined. rewrite filter_In, andb_true_iff, Z.eqb_eq,
        String.eqb_eq. tauto. }
    destruct joined as [| r more] eqn:Hj.
    + exists "free". split; [reflexivity |]. split; [reflexivity |].
      intros (s & Hs & Hsu & Hst). exfalso.
      apply (proj2 (Hjoined s)). auto.
    + exists (subscriptions.plan_type r). split; [reflexivity |].
      destruct (proj1 (Hjoined r) (or_introl eq_refl)) as (Hin & Hru & Hrs).
      split.
      * intros Hnone. exfalso. exact (Hnone r Hin Hru Hrs).
      * intros _. exists r. auto.
Qed.

(** The one read path that selects by active-like status is the query of
    [GET /api/subscriptions/current]: it returns the most recently created
    row of the user among the statuses active, trialing and past_due, and
    nothing when the user has no such row. *)
Lemma current_subscription_is_latest_active_like (userId : Z) (db : DB) :
  exists current,
    select_current_subscription userId db = (Ok current, db)
    /\ match current with
       | Some r =>
           In r (tbl_subscriptions db)
           /\ subscriptions.user_id r = userId
           /\ active_like (subscriptions.status r) = true
           /\ forall s, In s (tbl_subscriptions db) ->
                        subscriptions.user_id s = userId ->
                        active_like (subscriptions.status s) = true ->
                        subscriptions.created_at s <= subscriptions.created_at r
       | None =>
           forall s, In s (tbl_subscriptions db) ->
                     subscriptions.user_id s = userId ->
                     user_exists userId db = true ->
                     active_like (subscriptions.status s) = false
       end.
Proof.
  eexists. split; [reflexivity |].
  set (p := fun s => (subscriptions.user_id s =? userId)
                     && active_like (subscriptions.status s)
                     && user_exists (subscriptions.user_id s) db).
  assert (Hp : forall s, p s = true <->
             subscriptions.user_id s = userId
             /\ active_like (subscriptions.status s) = true
             /\ user_exists (subscriptions.user_id s) db = true).
  { intros s. unfold p. rewrite !andb_true_iff, Z.eqb_eq. tauto. }
  destruct (most_recent (filter p (tbl_subscriptions db))) as [r |] eqn:Hr.
  - destruct (most_recent_is_latest _ r Hr) as [Hin Hmax].
    apply filter_In in Hin. destruct Hin as [Hin Hpr].
    apply Hp in Hpr. destruct Hpr as (Hu & Ha & Hex).
    repeat split; auto.
    intros s Hs Hsu Hsa. apply Hmax. apply filter_In. split; [exact Hs |].
    apply Hp. rewrite Hsu, <- Hu. auto.
  - apply most_recent_nil in Hr. intros s Hs Hsu Hex.
    destruct (active_like (subscriptions.status s)) eqn:Ha; [| reflexivity].
    exfalso. assert (Hin : In s (filter p (tbl_subscriptions db))).
    { apply filter_In. split; [exact Hs |]. apply Hp. rewrite Hsu. auto. }
    rewrite Hr in Hin. exact Hin.
Qed.

(** C8, counterexample: user 1 has one subscription, canceled, so no row
    with an active-like status; [getUserStats] still reports its plan,
    ['pro'], and not ['free']. *)
Lemma canceled_plan_is_still_reported :
  (forall s, In s (tbl_subscriptions Fixture.db_canceled) ->
             subscriptions.user_id s = 1 ->
             active_like (subscriptions.status s) = false)
  /\ exists stats,
       reply_of (getUserStats 1 Fixture.db_canceled) = Ok stats
       /\ subscription_plan stats = "pro"
       /\ subscription_plan stats <> "free".
Proof.
  split.
  - intros s [<- | []] _. reflexivity.
  - eexists. split; [reflexivity |]. split; [reflexivity |].
    vm_compute. discriminate.
Qed.

(** C8, witness: the canceled Pro plan of the fixture is the most recent
    row of user 1. *)
Lemma plan_read_paths_witness :
  exists stats,
    getUserStats 1 Fixture.db_canceled = (Ok stats, Fixture.db_canceled)
    /\ subscription_plan stats = "pro".
Proof.
  destruct (plan_read_paths 1 Fixture.db_canceled)
    as [(stats & Hrun & _ & Hsome) _].
  exists stats. split; [exact Hrun |].
  destruct Hsome as (r & Hin & _ & _ & Hplan & _).
  - exists Fixture.sub_row_canceled. split; [left; reflexivity | reflexivity].
  - destruct Hin as [<- | []]. exact Hplan.
Defined.

(** ** Who writes [users.subscription_status] *)







(** Case analysis on every test a route makes, innermost test first. *)
Ltac is_plain_test c :=
  lazymatch c with
  | context [if _ then _ else _] => fail
  | context [match _ with _ => _ end] => fail
  | _ => idtac
  end.

Ltac split_route :=
  repeat (match goal with
          | |- context [if ?c then _ else _] =>
              is_plain_test c; destruct c eqn:?
          | |- context [match ?x with _ => _ end] =>
              is_plain_test x; destruct x eqn:?
          end; cbv beta iota).

Section StatusWriters.
Context {ext : External}.
Variable process_env : env.




End StatusWriters.


(** ** The scenarios of the specification, run on the fixture *)

Example bearer_token_strips_prefix :
  bearer_token (Some "Bearer token-1") = Some "token-1"
  /\ bearer_token (Some "token-1") = Some "token-1"
  /\ bearer_token None = None.
Proof. repeat split. Qed.

(** Scenario A: register, then call an authenticated route with the
    returned token inside its validity window. *)
Example scenario_A :
  let registered :=
    @post_auth_register Fixture.ext Fixture.process_env
      (Some "c@x.com") (Some "secret3") (Some "Carol") None "salt" 100
      Fixture.db0 in
  (exists r, reply_of registered = Ok r /\ status r = 201)
  /\ @requireAuth Fixture.ext Fixture.process_env (Some "Bearer token-3") 200
                  (db_after registered)
     = (Ok (next 3), db_after registered).
Proof. split; [eexists; split; reflexivity | reflexivity]. Qed.

(** Scenario B: the clock moves past [expires_at]. *)
Example scenario_B :
  let run := @requireAuth Fixture.ext Fixture.process_env
               (Some "Bearer token-1") 1001 Fixture.db0 in
  reply_of run = Ok (reply (requireAuth_answer ExpiredSession))
  /\ tbl_sessions (db_after run) = [].
Proof. split; reflexivity. Qed.

(** Scenarios C and D: a creation event, then its redelivery. *)
Example scenario_C_D :
  let once := db_after (handleSubscriptionCreated Fixture.sub_1 5000 Fixture.db0) in
  let twice := db_after (handleSubscriptionCreated Fixture.sub_1 6000 once) in
  map users.subscription_status (tbl_users once) = ["trialing"; "free"]
  /\ tbl_subscriptions once
     = [subscriptions.mk 1 (Some "sub_1") "trialing" "pro"
                         1700000000000 1702592000000 false 5000 5000]
  /\ map alerts.alert_type (tbl_alerts once) = ["subscription_created"]
  /\ tbl_subscriptions twice
     = [subscriptions.mk 1 (Some "sub_1") "trialing" "pro"
                         1700000000000 1702592000000 false 5000 6000]
  /\ map alerts.alert_type (tbl_alerts twice)
     = ["subscription_created"; "subscription_created"].
Proof. repeat split. Qed.

(** Scenario E: the subscription is deleted. *)
Example scenario_E :
  let db' := db_after (handleSubscriptionDeleted Fixture.sub_1 7000 Fixture.db1) in
  map users.subscription_status (tbl_users db') = ["free"; "free"]
  /\ map subscriptions.status (tbl_subscriptions db') = ["canceled"]
  /\ map integrations.is_active (tbl_integrations db') = [false]
  /\ map alerts.alert_type (tbl_alerts db') = ["subscription_canceled"].
Proof. repeat split. Qed.

(** Scenario F: an event for a customer nobody carries. *)
Example scenario_F :
  @post_webhooks_stripe Fixture.ext Fixture.process_env
    (Fixture.signed "customer.subscription.created") 5000 Fixture.db_unbound
  = (Ok (res_json (JObj [("received", JBool true)])), Fixture.db_unbound).
Proof. reflexivity. Qed.

(** An immediate cancellation through the subscriptions router sets the
    user back to ['free']. *)
Example immediate_cancel_writes_status :
  let db := db_after (handleSubscriptionCreated Fixture.sub_1 100 Fixture.db0) in
  let run := @delete_subscriptions_cancel Fixture.ext Fixture.process_env
               (Some "Bearer token-1") true 500 db in
  map users.subscription_status (tbl_users db) = ["trialing"; "free"]
  /\ (exists r, reply_of run = Ok r /\ status r = 200)
  /\ map users.subscription_status (tbl_users (db_after run)) = ["free"; "free"]
  /\ map subscriptions.status (tbl_subscriptions (db_after run)) = ["canceled"].
Proof.
  split; [reflexivity |]. split; [eexists; split; reflexivity |].
  split; reflexivity.
Qed.

(** * Further properties of the modelled code *)

(** ** Tokens and headers *)

Lemma drop_prefix_app (p s : string) : drop_prefix p (p ++ s) = Some s.
Proof.
  induction p as [| a p IH]; simpl; [reflexivity |].
  rewrite Ascii.eqb_refl. exact IH.
Qed.

Lemma drop_prefix_Some (p s rest : string) :
  drop_prefix p s = Some rest -> s = p ++ rest.
Proof.
  revert s. induction p as [| a p IH]; simpl; intros s H.
  - inversion H. reflexivity.
  - destruct s as [| b s]; [discriminate |].
    destruct (Ascii.eqb_spec a b) as [-> | _]; [| discriminate].
    rewrite (IH s H). reflexivity.
Qed.

Lemma remove_first_equation (p s : string) :
  remove_first p s
  = match drop_prefix p s with
    | Some rest => rest
    | None =>
        match s with
        | EmptyString => EmptyString
        | String c s' => String c (remove_first p s')
        end
    end.
Proof. destruct s; reflexivity. Qed.

Lemma remove_first_app (p s : string) : remove_first p (p ++ s) = s.
Proof. rewrite remove_first_equation, drop_prefix_app. reflexivity. Qed.

Lemma contains_space_app (a b : string) :
  contains_space (a ++ b) = contains_space a || contains_space b.
Proof.
  induction a as [| c a IH]; simpl; [reflexivity |].
  rewrite IH, orb_assoc. reflexivity.
Qed.

Lemma remove_first_without_space (s : string) :
  contains_space s = false -> remove_first "Bearer " s = s.
Proof.
  induction s as [| c s IH]; intros H; [reflexivity |].
  rewrite remove_first_equation.
  destruct (drop_prefix "Bearer " (String c s)) as [rest |] eqn:Hd.
  - apply drop_prefix_Some in Hd. rewrite Hd, contains_space_app in H.
    discriminate.
  - simpl in H. apply orb_false_iff in H. destruct H as [_ H].
    rewrite (IH H). reflexivity.
Qed.

Section SessionExtras.
Context {ext : External}.
Variable process_env : env.

(** X1. The scheme prefix is optional: a header that is the bare token
    (no space in it) is treated exactly as the header
    ["Bearer " ++ token], by the guard and by [GET /api/auth/me]. *)
Theorem bare_token_is_accepted (token : string) (now : Z) (db : DB) :
  contains_space token = false ->
  requireAuth process_env (Some token) now db
  = requireAuth process_env (Some ("Bearer " ++ token)) now db
  /\ get_auth_me process_env (Some token) now db
     = get_auth_me process_env (Some ("Bearer " ++ token)) now db.
Proof.
  intros Hns.
  rewrite !requireAuth_equation, !get_auth_me_equation.
  unfold bearer_token, option_map.
  rewrite remove_first_app, (remove_first_without_space token Hns).
  split; reflexivity.
Qed.

(** X2. Whatever the request, the guard answers (it never throws), it
    writes nothing but the [sessions] table, it only ever removes rows
    from it, and it leaves the whole database untouched unless its answer
    is the expired-session one; a request it lets through changes
    nothing. *)
Theorem guard_writes_only_expired_sessions
  (authorization : option string) (now : Z) (db : DB) :
  let run := requireAuth process_env authorization now db in
  (exists g, reply_of run = Ok g)
  /\ (db_after run = db
      \/ reply_of run = Ok (reply (requireAuth_answer ExpiredSession)))
  /\ db_after run = set_sessions (fun _ => tbl_sessions (db_after run)) db
  /\ (forall s, In s (tbl_sessions (db_after run)) -> In s (tbl_sessions db))
  /\ (forall userId, reply_of run = Ok (next userId) -> db_after run = db).
Proof.
  cbv zeta. unfold reply_of, db_after. rewrite requireAuth_equation.
  assert (Hid : db = set_sessions (fun _ => tbl_sessions db) db)
    by (destruct db; reflexivity).
  split_route; cbn [fst snd];
    (split; [eexists; reflexivity |]);
    (split; [first [left; reflexivity | right; reflexivity] |]);
    (split; [first [exact Hid | reflexivity] |]);
    (split; [| first [reflexivity | discriminate]]).
  all: try (intros row Hrow; exact Hrow).
  intros row Hrow. simpl in Hrow. apply filter_In in Hrow. tauto.
Qed.

Lemma post_auth_logout_equation (authorization : option string) (db : DB) :
  post_auth_logout authorization db
  = (Ok (res_json (JObj [("message", JStr "Logout exitoso")])),
     if truthy (bearer_token authorization) then
       set_sessions
         (filter (fun s => negb (String.eqb (sessions.session_token s)
                                            (field (bearer_token authorization)))))
         db
     else db).
Proof.
  unfold post_auth_logout, try_catch, bind, ret, delete_sessions_by_token, modify.
  destruct (truthy (bearer_token authorization)); reflexivity.
Qed.

(** X3. Logout always answers 200; afterwards the same header no longer
    authenticates, at any instant; the sessions of other tokens stay, and
    no other table is written. *)
Theorem logout_revokes_the_token
  (authorization : option string) (now : Z) (db : DB) :
  let out := post_auth_logout authorization db in
  reply_of out = Ok (res_json (JObj [("message", JStr "Logout exitoso")]))
  /\ (forall userId,
        reply_of (requireAuth process_env authorization now (db_after out))
        <> Ok (next userId))
  /\ (forall s, In s (tbl_sessions db) ->
                Some (sessions.session_token s) <> bearer_token authorization ->
                In s (tbl_sessions (db_after out)))
  /\ db_after out = set_sessions (fun _ => tbl_sessions (db_after out)) db.
Proof.
  cbv zeta. unfold reply_of, db_after.
  rewrite post_auth_logout_equation. cbn [fst snd].
  split; [reflexivity |].
  rewrite requireAuth_equation.
  destruct (bearer_token authorization) as [[| c t] |] eqn:Htok; cbn [truthy field or_default].
  - repeat split; try discriminate; auto. destruct db; reflexivity.
  - split; [| split].
    + intros userId.
      destruct (jwt_verify _ _ now) as [uid |]; [| discriminate].
      cbn [tbl_sessions set_sessions]. rewrite select_after_delete. discriminate.
    + intros s Hs Hne. cbn [tbl_sessions set_sessions]. apply filter_In.
      split; [exact Hs |].
      destruct (String.eqb_spec (sessions.session_token s) (String c t)) as [E | E];
        [| reflexivity].
      exfalso. apply Hne. rewrite E. reflexivity.
    + reflexivity.
  - repeat split; try discriminate; auto. destruct db; reflexivity.
Qed.

Lemma at_most_one_session (token : string) (uid : Z) (db : DB) :
  unique_session_tokens db ->
  (List.length (filter (fun s => String.eqb (sessions.session_token s) token
                                 && Z.eqb (sessions.user_id s) uid)
                       (tbl_sessions db)) <= 1)%nat.
Proof.
  intros Huniq.
  destruct (filter _ (tbl_sessions db)) as [| s rest] eqn:Hf; [simpl; lia |].
  assert (Hin : In s (filter (fun s => String.eqb (sessions.session_token s) token
                                       && (sessions.user_id s =? uid))
                             (tbl_sessions db))) by (rewrite Hf; left; reflexivity).
  apply filter_In in Hin. destruct Hin as [Hin Hc].
  apply andb_true_iff in Hc. destruct Hc as [Ht _]. apply String.eqb_eq in Ht.
  rewrite <- Ht in Hf.
  rewrite (select_unique_session s _ uid Huniq Hin) in Hf.
  destruct (sessions.user_id s =? uid); inversion Hf; simpl; lia.
Qed.

Lemma filter_filter_comm {A} (p q : A -> bool) (l : list A) :
  filter p (filter q l) = filter q (filter p l).
Proof.
  induction l as [| x l IH]; simpl; [reflexivity |].
  destruct (p x) eqn:Hp, (q x) eqn:Hq; simpl; rewrite ?Hp, ?Hq, IH; reflexivity.
Qed.

(** X4. The periodic sweep is invisible to the guard: with unique session
    tokens, a request at an instant not before the sweep's is
    authenticated (and as the same user) after the sweep exactly when it
    would have been without it; the sweep never deletes a session the
    guard still accepts. *)
Theorem sweep_preserves_authentication
  (authorization : option string) (now now' : Z) (db : DB) (userId : Z) :
  unique_session_tokens db ->
  now <= now' ->
  (authenticated_as process_env authorization now'
                    (db_after (cleanupExpiredSessions now db)) userId
   <-> authenticated_as process_env authorization now' db userId).
Proof.
  intros Huniq Hle. unfold authenticated_as, reply_of, db_after.
  rewrite !requireAuth_equation.
  destruct (bearer_token authorization) as [[| c t] |]; try tauto.
  destruct (jwt_verify _ _ now') as [uid |]; try tauto.
  change (tbl_sessions (snd (cleanupExpiredSessions now db)))
    with (filter (fun s => negb (sessions.expires_at s <? now)) (tbl_sessions db)).
  rewrite filter_filter_comm.
  pose proof (at_most_one_session (String c t) uid db Huniq) as Hone.
  destruct (filter _ (tbl_sessions db)) as [| s [| s' rest]];
    [tauto | | simpl in Hone; lia].
  cbn [filter].
  destruct (sessions.expires_at s <? now) eqn:Hswept; cbn [negb].
  - apply Z.ltb_lt in Hswept.
    rewrite (proj2 (gtb_true_lt now' (sessions.expires_at s)));
      [| lia].
    cbn [fst]. split; discriminate.
  - destruct (now' >? sessions.expires_at s); reflexivity.
Qed.

Lemma select_absent_token (token : string) (uid : Z) (l : list sessions.row) :
  existsb (fun s => String.eqb (sessions.session_token s) token) l = false ->
  filter (fun s => String.eqb (sessions.session_token s) token
                   && (sessions.user_id s =? uid)) l = [].
Proof.
  induction l as [| x l IH]; simpl; [reflexivity |].
  destruct (String.eqb (sessions.session_token x) token); simpl;
    [discriminate | exact IH].
Qed.

(** A session row just inserted for a token that verifies is accepted by
    the guard until its expiry. *)
Lemma fresh_session_authenticates
  (token : string) (userId expiresAt created now' : Z) (db : DB) :
  token <> EmptyString ->
  jwt_verify token (jwt_secret process_env) now' = Some userId ->
  existsb (fun s => String.eqb (sessions.session_token s) token)
          (tbl_sessions db) = false ->
  now' <= expiresAt ->
  let db' := set_sessions
               (fun l => (l ++ [sessions.mk userId token expiresAt created])%list)
               db in
  requireAuth process_env (Some ("Bearer " ++ token)) now' db'
  = (Ok (next userId), db').
Proof.
  intros Hne Hv Hfresh Hle db'. subst db'. rewrite requireAuth_equation.
  unfold bearer_token, option_map. rewrite remove_first_app.
  destruct (truthy_token token Hne) as (c & t & Hct). subst token.
  rewrite Hv. cbn [tbl_sessions set_sessions].
  rewrite filter_app, (select_absent_token _ userId _ Hfresh).
  cbn [filter app sessions.session_token sessions.user_id].
  rewrite String.eqb_refl, Z.eqb_refl. cbn [andb sessions.expires_at].
  rewrite (proj2 (gtb_false_le _ _) Hle). reflexivity.
Qed.

Lemma post_auth_login_equation (email password : option string) (now : Z) (db : DB) :
  post_auth_login process_env email password now db
  = if negb (truthy email && truthy password) then
      (Ok (res_error 400 "Email y contraseña son requeridos"), db)
    else
      match filter (fun u => String.eqb (users.email u) (toLowerCase (field email)))
                   (tbl_users db) with
      | [] => (Ok (res_error 401 "Email o contraseña incorrectos"), db)
      | user :: _ =>
          if negb (bcrypt_compare (field password) (users.password_hash user))
          then (Ok (res_error 401 "Email o contraseña incorrectos"), db)
          else
            let token := generateToken process_env (users.id user) now in
            if existsb (fun s => String.eqb (sessions.session_token s) token)
                       (tbl_sessions db)
            then (Ok (res_error 500 "Error interno del servidor"), db)
            else if user_exists (users.id user) db then
              (Ok (res_json (account_body "Login exitoso" user [] token)),
               set_sessions
                 (fun l => (l ++ [sessions.mk (users.id user) token
                                              (now + session_lifetime) now])%list)
                 db)
            else (Ok (res_error 500 "Error interno del servidor"), db)
      end.
Proof.
  unfold post_auth_login, try_catch, bind, ret, select_users_by_email,
    insert_session.
  cbv zeta. split_route; reflexivity.
Qed.

(** X5. A login answered with status 200 has matched a user by
    lower-cased email and password and returns that user's fresh token;
    presented as a bearer token, the token authenticates as that user at
    every instant at which it verifies, up to thirty days after the
    login. *)
Theorem login_token_authenticates
  (email password : option string) (now : Z) (db : DB) (r : response) :
  reply_of (post_auth_login process_env email password now db) = Ok r ->
  status r = 200 ->
  exists user,
    In user (tbl_users db)
    /\ users.email user = toLowerCase (field email)
    /\ bcrypt_compare (field password) (users.password_hash user) = true
    /\ r = res_json (account_body "Login exitoso" user []
                                  (generateToken process_env (users.id user) now))
    /\ forall now',
         generateToken process_env (users.id user) now <> EmptyString ->
         jwt_verify (generateToken process_env (users.id user) now)
                    (jwt_secret process_env) now' = Some (users.id user) ->
         now' <= now + session_lifetime ->
         reply_of (requireAuth process_env
                     (Some ("Bearer "
                            ++ generateToken process_env (users.id user) now))
                     now'
                     (db_after (post_auth_login process_env email password now db)))
         = Ok (next (users.id user)).
Proof.
  unfold reply_of, db_after. rewrite post_auth_login_equation. cbv zeta.
  destruct (negb (truthy email && truthy password));
    [cbn [fst]; intros H; inversion H; subst; simpl; discriminate |].
  destruct (filter _ (tbl_users db)) as [| user rest] eqn:Hsel;
    [cbn [fst]; intros H; inversion H; subst; simpl; discriminate |].
  destruct (bcrypt_compare (field password) (users.password_hash user)) eqn:Hpw;
    cbn [negb];
    [| cbn [fst]; intros H; inversion H; subst; simpl; discriminate].
  destruct (existsb _ (tbl_sessions db)) eqn:Hfresh;
    [cbn [fst]; intros H; inversion H; subst; simpl; discriminate |].
  destruct (user_exists (users.id user) db);
    [| cbn [fst]; intros H; inversion H; subst; simpl; discriminate].
  cbn [fst snd]. intros H _. inversion H; subst. clear H.
  assert (Hin : In user (filter (fun u => String.eqb (users.email u)
                                                     (toLowerCase (field email)))
                                (tbl_users db))) by (rewrite Hsel; left; reflexivity).
  apply filter_In in Hin. destruct Hin as [Hin He]. apply String.eqb_eq in He.
  exists user. repeat split; auto.
  intros now' Hne Hv Hle.
  rewrite (fresh_session_authenticates _ _ _ _ now' db Hne Hv Hfresh Hle).
  reflexivity.
Qed.

Lemma filter_nil_none {A} (p : A -> bool) (l : list A) (x : A) :
  filter p l = [] -> In x l -> p x = false.
Proof.
  intros Hf Hin. destruct (p x) eqn:Hp; [| reflexivity].
  assert (H : In x (filter p l)) by (apply filter_In; auto).
  rewrite Hf in H. destruct H.
Qed.

Lemma existsb_false_none {A} (p : A -> bool) (l : list A) (x : A) :
  existsb p l = false -> In x l -> p x = false.
Proof.
  intros He Hin. destruct (p x) eqn:Hp; [| reflexivity].
  assert (H : existsb p l = true) by (apply existsb_exists; eauto).
  congruence.
Qed.

(** Closes the branches of a route whose answer has another status than
    the one assumed. *)
Ltac other_status :=
  cbv beta iota; cbn [fst snd];
  let H := fresh "Hreply" in
  let Hs := fresh "Hstatus" in
  intros H Hs; inversion H; subst; simpl in Hs; lia.

(** X6. A registration answered with status 201 appends exactly one user:
    its id is the next value of the sequence, its email is the
    lower-cased one, which no previous user had, its
    [subscription_status] is ['free'] and it has no billing customer; and
    the token it returns authenticates as the new user at every instant
    at which it verifies, up to thirty days later. *)
Theorem registration_creates_a_free_user
  (email password name company_name : option string) (salt : string)
  (now : Z) (db : DB) (r : response) :
  let run := post_auth_register process_env email password name company_name
                                salt now db in
  let user := users.mk (users_id_seq db) (toLowerCase (field email))
                       (bcrypt_hash (field password) 12 salt) (field name)
                       (or_null company_name) "free" None now now in
  let token := generateToken process_env (users_id_seq db) now in
  reply_of run = Ok r ->
  status r = 201 ->
  tbl_users (db_after run) = (tbl_users db ++ [user])%list
  /\ (forall u, In u (tbl_users db) ->
                users.email u <> users.email user /\ users.id u <> users.id user)
  /\ users_id_seq (db_after run) = users_id_seq db + 1
  /\ forall now',
       token <> EmptyString ->
       jwt_verify token (jwt_secret process_env) now' = Some (users_id_seq db) ->
       now' <= now + session_lifetime ->
       reply_of (requireAuth process_env (Some ("Bearer " ++ token)) now'
                             (db_after run))
       = Ok (next (users_id_seq db)).
Proof.
  cbv zeta. unfold reply_of, db_after.
  unfold post_auth_register, try_catch, bind, ret, select_users_by_email,
    insert_user, insert_session.
  destruct (negb (truthy email && truthy password && truthy name));
    [other_status |].
  destruct (negb (emailRegex_test (field email))); [other_status |].
  destruct (js_length (field password) <? 6); [other_status |].
  destruct (filter _ (tbl_users db)) as [| dup rest] eqn:Hemail;
    [| other_status].
  cbv beta iota.
  destruct (existsb _ (tbl_users db)); [other_status |].
  destruct (user_exists (users_id_seq db) db) eqn:Hid; [other_status |].
  cbv beta iota. cbn [users.id].
  destruct (existsb _ (tbl_sessions _)) eqn:Hfresh; [other_status |].
  match goal with
  | |- context [user_exists (users_id_seq db) (set_users ?f ?d)] =>
      destruct (user_exists (users_id_seq db) (set_users f d))
  end; [| other_status].
  cbv beta iota. cbn [fst snd]. intros _ _. split; [reflexivity |].
  split; [| split; [reflexivity |]].
  - intros u Hu. cbn [users.email users.id]. split.
    + intros E. pose proof (filter_nil_none _ _ u Hemail Hu) as Hn.
      cbv beta in Hn. rewrite E, String.eqb_refl in Hn. discriminate.
    + intros E. unfold user_exists in Hid.
      pose proof (existsb_false_none _ _ u Hid Hu) as Hn.
      cbv beta in Hn. rewrite E, Z.eqb_refl in Hn. discriminate.
  - intros now' Hne Hv Hle.
    match goal with
    | |- fst (requireAuth _ _ _ (set_sessions _ ?d)) = _ =>
        rewrite (fresh_session_authenticates
                   (generateToken process_env (users_id_seq db) now)
                   (users_id_seq db) (now + session_lifetime) now now' d
                   Hne Hv Hfresh Hle)
    end.
    reflexivity.
Qed.

Lemma post_auth_change_password_equation
  (authorization currentPassword newPassword : option string) (salt : string)
  (now : Z) (db : DB) :
  post_auth_change_password process_env authorization currentPassword
                            newPassword salt now db
  = if negb (truthy (bearer_token authorization)) then
      (Ok (res_error 401 "Token no proporcionado"), db)
    else if negb (truthy currentPassword && truthy newPassword) then
      (Ok (res_error 400 "Contraseña actual y nueva son requeridas"), db)
    else if js_length (field newPassword) <? 6 then
      (Ok (res_error 400 "La nueva contraseña debe tener al menos 6 caracteres"),
       db)
    else
      match jwt_verify (field (bearer_token authorization))
                       (jwt_secret process_env) now with
      | None => (Ok (res_error 401 "Token inválido"), db)
      | Some userId =>
          match filter (fun u => users.id u =? userId) (tbl_users db) with
          | [] => (Ok (res_error 404 "Usuario no encontrado"), db)
          | user :: _ =>
              if negb (bcrypt_compare (field currentPassword)
                                      (users.password_hash user))
              then (Ok (res_error 401 "Contraseña actual incorrecta"), db)
              else
                (Ok (res_json
                       (JObj [("message",
                               JStr "Contraseña actualizada exitosamente")])),
                 set_users
                   (map (with_password_hash
                           (bcrypt_hash (field newPassword) 12 salt) userId now))
                   db)
          end
      end.
Proof.
  unfold post_auth_change_password, try_catch, bind, ret, select_users_by_id,
    update_users_password_hash, modify.
  split_route; reflexivity.
Qed.

(** X7. Changing the password neither reads nor writes the [sessions]
    table: with any other content of that table the route gives the same
    answer and the same [users] table, and it leaves every session in
    place. A token revoked by logout can therefore still change the
    password, and a password change revokes no session. *)
Theorem change_password_ignores_sessions
  (authorization currentPassword newPassword : option string) (salt : string)
  (now : Z) (db : DB) (other : list sessions.row) :
  let route := post_auth_change_password process_env authorization
                 currentPassword newPassword salt now in
  let run := route db in
  let run' := route (set_sessions (fun _ => other) db) in
  reply_of run' = reply_of run
  /\ tbl_users (db_after run') = tbl_users (db_after run)
  /\ tbl_sessions (db_after run) = tbl_sessions db
  /\ tbl_sessions (db_after run') = other.
Proof.
  cbv zeta. unfold reply_of, db_after.
  rewrite !post_auth_change_password_equation.
  cbn [tbl_users set_sessions].
  split_route; repeat split; reflexivity.
Qed.

(** X8. A login that finds no user for the email and a login whose
    password does not match get the same answer, and no login that is not
    answered with status 200 writes anything. *)
Theorem failed_login_is_silent
  (email password : option string) (now : Z) (db : DB) :
  let run := post_auth_login process_env email password now db in
  (forall r, reply_of run = Ok r -> status r <> 200 -> db_after run = db)
  /\ (truthy email = true -> truthy password = true ->
      (forall u, In u (tbl_users db) ->
                 users.email u = toLowerCase (field email) ->
                 bcrypt_compare (field password) (users.password_hash u) = false) ->
      run = (Ok (res_error 401 "Email o contraseña incorrectos"), db)).
Proof.
  cbv zeta. unfold reply_of, db_after. rewrite post_auth_login_equation.
  cbv zeta. split.
  - intros r. split_route; cbn [fst snd]; try reflexivity.
    intros H Hs. inversion H; subst. simpl in Hs. lia.
  - intros He Hp Hbad. rewrite He, Hp. cbn [andb negb].
    destruct (filter _ (tbl_users db)) as [| user rest] eqn:Hsel; [reflexivity |].
    assert (Hin : In user (filter (fun u => String.eqb (users.email u)
                                                       (toLowerCase (field email)))
                                  (tbl_users db))) by (rewrite Hsel; left; reflexivity).
    apply filter_In in Hin. destruct Hin as [Hin Hm]. apply String.eqb_eq in Hm.
    rewrite (Hbad user Hin Hm). reflexivity.
Qed.

(** What the guard hands to the route behind it. *)
Lemma requireAuth_outcome (authorization : option string) (now : Z) (db : DB) :
  match requireAuth process_env authorization now db with
  | (Ok (next userId), db1) =>
      db1 = db
      /\ exists s, In s (tbl_sessions db) /\ sessions.user_id s = userId
  | (Ok (reply r), db1) =>
      status r = 401 /\ db1 = set_sessions (fun _ => tbl_sessions db1) db
  | (Throw _, _) => False
  end.
Proof.
  rewrite requireAuth_equation.
  assert (Hid : db = set_sessions (fun _ => tbl_sessions db) db)
    by (destruct db; reflexivity).
  destruct (bearer_token authorization) as [[| c t] |]; try (split; [reflexivity | exact Hid]).
  destruct (jwt_verify _ _ now) as [uid |]; try (split; [reflexivity | exact Hid]).
  destruct (filter _ (tbl_sessions db)) as [| session rest] eqn:Hf;
    try (split; [reflexivity | exact Hid]).
  destruct (now >? sessions.expires_at session);
    [split; reflexivity |].
  split; [reflexivity |]. exists session.
  assert (Hin : In session (filter (fun s => String.eqb (sessions.session_token s)
                                                        (String c t)
                                             && (sessions.user_id s =? uid))
                                   (tbl_sessions db))) by (rewrite Hf; left; reflexivity).
  apply filter_In in Hin. destruct Hin as [Hin Hc].
  apply andb_true_iff in Hc. split; [exact Hin | apply Z.eqb_eq; tauto].
Qed.

Lemma filter_out_absent {A} (p : A -> bool) (l : list A) (x : A) :
  In x (filter (fun y => negb (p y)) l) -> p x = false.
Proof.
  intros H. apply filter_In in H. destruct H as [_ H].
  apply negb_true_iff in H. exact H.
Qed.


Lemma with_profile_account_columns
  (n : string) (c : option string) (userId now : Z) (u : users.row) :
  account_columns (with_profile n c userId now u) = account_columns u.
Proof.
  unfold with_profile. destruct (users.id u =? userId); reflexivity.
Qed.

(** X10. A profile update changes nothing but [name], [company_name] and
    [updated_at], and only in the rows of the authenticated user: the
    [users] table keeps its rows in place with their id, email, password
    hash, [subscription_status], billing customer and creation date, a
    changed row belongs to the user the guard let through, and the
    [subscriptions], [integrations] and [alerts] tables are untouched. *)
Theorem profile_update_touches_only_the_profile
  (authorization name company_name : option string) (now : Z) (db : DB) :
  let db' := db_after (put_users_profile process_env authorization name
                                         company_name now db) in
  map account_columns (tbl_users db') = map account_columns (tbl_users db)
  /\ (forall u, In u (tbl_users db') ->
                In u (tbl_users db)
                \/ authenticated_as process_env authorization now db (users.id u))
  /\ tbl_subscriptions db' = tbl_subscriptions db
  /\ tbl_integrations db' = tbl_integrations db
  /\ tbl_alerts db' = tbl_alerts db.
Proof.
  cbv zeta. unfold db_after, put_users_profile, guarded, bind, authenticated_as,
    reply_of.
  pose proof (requireAuth_outcome authorization now db) as Hg.
  destruct (requireAuth process_env authorization now db) as [[[userId | r0] | e] db1];
    [| | destruct Hg].
  2: { destruct Hg as [_ ->]. unfold ret. cbn. repeat split; auto. }
  destruct Hg as [-> _].
  unfold try_catch, bind, ret, update_users_profile.
  split_route; cbn [fst snd tbl_users tbl_subscriptions tbl_integrations
                    tbl_alerts set_users];
    repeat split; auto;
    try (rewrite map_map; apply map_ext; intros u;
         apply with_profile_account_columns).
  all: intros u Hu; apply in_map_iff in Hu; destruct Hu as (v & <- & Hv);
    unfold with_profile;
    destruct (Z.eqb_spec (users.id v) userId) as [E | E];
    [right; cbn [users.id]; rewrite E; reflexivity | left; exact Hv].
Qed.

End SessionExtras.

(** ** The webhook endpoint and the handlers that only notify *)

Section WebhookExtras.
Context {ext : External}.
Variable process_env : env.

Lemma post_webhooks_stripe_unverified
  (req : webhook_request) (now : Z) (db : DB) :
  verifyStripeWebhook process_env req = accepted_unverified ->
  post_webhooks_stripe process_env req now db
  = if negb (truthy (STRIPE_SECRET_KEY process_env)) then
      (Ok (res_json (JObj [("received", JBool true);
                           ("mode", JStr "development")])), db)
    else (Ok (res_json (JObj [("received", JBool true)])), db).
Proof.
  intros Hv. unfold post_webhooks_stripe, try_catch, bind, ret. rewrite Hv.
  destruct (negb (truthy (STRIPE_SECRET_KEY process_env))); reflexivity.
Qed.

Lemma post_webhooks_stripe_rejected
  (req : webhook_request) (now : Z) (db : DB) :
  verifyStripeWebhook process_env req = rejected ->
  post_webhooks_stripe process_env req now db
  = (Ok (res_error 400 "Webhook verification failed"), db).
Proof.
  intros Hv. unfold post_webhooks_stripe, try_catch, ret. rewrite Hv.
  reflexivity.
Qed.

Lemma verifyStripeWebhook_cases (req : webhook_request) :
  (truthy (STRIPE_WEBHOOK_SECRET process_env) = false
   /\ verifyStripeWebhook process_env req = accepted_unverified)
  \/ (truthy (STRIPE_WEBHOOK_SECRET process_env) = true
      /\ ((exists e,
             constructEvent (raw_body req) (stripe_signature req)
                            (field (STRIPE_WEBHOOK_SECRET process_env)) = Some e
             /\ verifyStripeWebhook process_env req = verified e)
          \/ (constructEvent (raw_body req) (stripe_signature req)
                             (field (STRIPE_WEBHOOK_SECRET process_env)) = None
              /\ verifyStripeWebhook process_env req = rejected))).
Proof.
  unfold verifyStripeWebhook.
  destruct (STRIPE_WEBHOOK_SECRET process_env) as [[| c s] |];
    try (left; split; reflexivity).
  right. split; [reflexivity |]. cbn [field or_default].
  destruct (constructEvent _ _ _) as [e |]; [left; exists e | right]; auto.
Qed.

(** X11. Unless both [STRIPE_WEBHOOK_SECRET] and [STRIPE_SECRET_KEY] are
    set, the stripe endpoint never changes the database; and without the
    webhook secret every request, whatever its body and signature, is
    answered with status 200: unverified events are acknowledged and
    ignored, not applied. *)
Theorem unconfigured_endpoint_never_writes
  (req : webhook_request) (now : Z) (db : DB) :
  truthy (STRIPE_WEBHOOK_SECRET process_env) = false
  \/ truthy (STRIPE_SECRET_KEY process_env) = false ->
  let run := post_webhooks_stripe process_env req now db in
  db_after run = db
  /\ (truthy (STRIPE_WEBHOOK_SECRET process_env) = false ->
      exists r, reply_of run = Ok r /\ status r = 200).
Proof.
  intros Hcfg. cbv zeta. unfold db_after, reply_of.
  destruct (verifyStripeWebhook_cases req)
    as [[Hoff Hv] | [Hon [(e & _ & Hv) | [_ Hv]]]].
  - rewrite (post_webhooks_stripe_unverified req now db Hv).
    destruct (negb (truthy (STRIPE_SECRET_KEY process_env)));
      (split; [reflexivity | intros _; eexists; split; reflexivity]).
  - destruct Hcfg as [Hoff | Hkey]; [congruence |].
    rewrite (post_webhooks_stripe_verified process_env req e now db Hv), Hkey.
    split; [reflexivity | congruence].
  - rewrite (post_webhooks_stripe_rejected req now db Hv).
    split; [reflexivity | congruence].
Qed.






Lemma overwrite_matching_keeps
  (status : string) (ps pe : Z) (cancel : bool) (ref : string) (now : Z)
  (s : subscriptions.row) :
  let s' := overwrite_matching status ps pe cancel ref now s in
  subscriptions.user_id s' = subscriptions.user_id s
  /\ subscriptions.stripe_subscription_id s'
     = subscriptions.stripe_subscription_id s
  /\ subscriptions.plan_type s' = subscriptions.plan_type s
  /\ subscriptions.created_at s' = subscriptions.created_at s.
Proof.
  cbv zeta. unfold overwrite_matching.
  destruct (sql_eq (subscriptions.stripe_subscription_id s) ref);
    repeat split.
Qed.

(** X14. A creation event for a billing reference the store already has
    adds no row and never changes the owner, the plan type or the creation
    date of a subscription, whatever plan the event carries and whichever
    user its customer resolves to. *)
Theorem creation_on_existing_reference_keeps_owner_and_plan
  (subscription : stripe_subscription) (now : Z) (db : DB) (u : users.row) :
  resolves_to (sub_customer subscription) db u ->
  subscription_exists (sub_id subscription) db = true ->
  let key s := (subscriptions.user_id s, subscriptions.stripe_subscription_id s,
                subscriptions.plan_type s, subscriptions.created_at s) in
  map key (tbl_subscriptions
             (db_after (handleSubscriptionCreated subscription now db)))
  = map key (tbl_subscriptions db).
Proof.
  intros Hres Hsome key. unfold db_after.
  destruct (handleSubscriptionCreated_resolved subscription now db u Hres)
    as (a & _ & _ & _ & _ & ->).
  rewrite Hsome. cbn [snd tbl_subscriptions]. rewrite map_map.
  apply map_ext. intros s. subst key. cbv beta.
  destruct (overwrite_matching_keeps
              (sub_status subscription)
              (sub_current_period_start subscription * 1000)
              (sub_current_period_end subscription * 1000)
              (sub_cancel_at_period_end subscription)
              (sub_id subscription) now s) as (H1 & H2 & H3 & H4).
  rewrite H1, H2, H3, H4. reflexivity.
Qed.




Lemma handleCustomerCreated_equation (customer : stripe_customer) (db : DB) :
  handleCustomerCreated customer db
  = (Ok tt,
     if truthy (cus_email customer) then
       match filter (fun u => String.eqb (users.email u) (field (cus_email customer))
                              && match users.stripe_customer_id u with
                                 | None => true
                                 | Some _ => false
                                 end)
                    (tbl_users db) with
       | [] => db
       | user :: _ =>
           set_users (map (with_stripe_customer_id (cus_id customer)
                                                   (users.id user))) db
       end
     else db).
Proof.
  unfold handleCustomerCreated, try_catch, bind, ret,
    select_unbound_users_by_email, update_users_stripe_customer_id, modify.
  destruct (truthy (cus_email customer)); [| reflexivity].
  destruct (filter _ (tbl_users db)); reflexivity.
Qed.

Lemma NoDup_map_eq {A B} (f : A -> B) (l : list A) (x y : A) :
  NoDup (map f l) -> In x l -> In y l -> f x = f y -> x = y.
Proof.
  induction l as [| z l IH]; simpl; intros Hnd Hx Hy E; [contradiction |].
  inversion Hnd as [| ? ? Hz Hl]; subst.
  destruct Hx as [-> | Hx], Hy as [-> | Hy]; auto.
  - exfalso. apply Hz. rewrite E. apply in_map. exact Hy.
  - exfalso. apply Hz. rewrite <- E. apply in_map. exact Hx.
Qed.

Lemma with_stripe_customer_id_keeps (cid : string) (userId : Z) (u : users.row) :
  users.id (with_stripe_customer_id cid userId u) = users.id u
  /\ users.email (with_stripe_customer_id cid userId u) = users.email u
  /\ users.subscription_status (with_stripe_customer_id cid userId u)
     = users.subscription_status u.
Proof.
  unfold with_stripe_customer_id. destruct (users.id u =? userId);
    repeat split.
Qed.

(** X16. In a store with unique user ids and emails, a
    [customer.created] event never replaces a billing customer reference a
    user already has, changes no id, email or [subscription_status], and
    is idempotent: delivering it a second time leaves the database exactly
    as the first delivery left it. *)
Theorem customer_created_binds_once
  (customer : stripe_customer) (db : DB) :
  NoDup (map users.id (tbl_users db)) ->
  NoDup (map users.email (tbl_users db)) ->
  let once := db_after (handleCustomerCreated customer db) in
  let twice := db_after (handleCustomerCreated customer once) in
  (forall u c, In u (tbl_users db) -> users.stripe_customer_id u = Some c ->
               In u (tbl_users once))
  /\ map (fun u => (users.id u, users.email u, users.subscription_status u))
         (tbl_users once)
     = map (fun u => (users.id u, users.email u, users.subscription_status u))
           (tbl_users db)
  /\ twice = once.
Proof.
  intros Hids Hemails once twice. subst once twice. unfold db_after.
  rewrite (handleCustomerCreated_equation customer db). cbn [snd].
  destruct (truthy (cus_email customer)) eqn:Hemail.
  2: { rewrite handleCustomerCreated_equation, Hemail. repeat split; auto. }
  destruct (filter _ (tbl_users db)) as [| user rest] eqn:Hsel.
  { rewrite handleCustomerCreated_equation, Hemail, Hsel. repeat split; auto. }
  assert (Huser : In user (filter (fun u => String.eqb (users.email u)
                                                       (field (cus_email customer))
                                            && match users.stripe_customer_id u with
                                               | None => true
                                               | Some _ => false
                                               end) (tbl_users db)))
    by (rewrite Hsel; left; reflexivity).
  apply filter_In in Huser. destruct Huser as [Huser Hc].
  apply andb_true_iff in Hc. destruct Hc as [Hue Hnull].
  apply String.eqb_eq in Hue.
  split; [| split].
  - intros u c Hu Hbound. cbn [tbl_users set_users]. apply in_map_iff.
    exists u. split; [| exact Hu]. unfold with_stripe_customer_id.
    destruct (Z.eqb_spec (users.id u) (users.id user)) as [E | E]; [| reflexivity].
    rewrite (NoDup_map_eq users.id _ u user Hids Hu Huser E) in Hbound.
    rewrite Hbound in Hnull. discriminate.
  - cbn [tbl_users set_users]. rewrite map_map. apply map_ext. intros u.
    destruct (with_stripe_customer_id_keeps (cus_id customer) (users.id user) u)
      as (H1 & H2 & H3).
    rewrite H1, H2, H3. reflexivity.
  - rewrite handleCustomerCreated_equation, Hemail. cbn [snd tbl_users set_users].
    match goal with
    | |- match ?l with _ => _ end = _ => assert (Hnone : l = [])
    end; [| rewrite Hnone; reflexivity].
    destruct (filter _ (map _ (tbl_users db))) as [| v rest'] eqn:Hsel2;
      [reflexivity |]. exfalso.
    assert (Hv : In v (filter (fun u => String.eqb (users.email u)
                                                   (field (cus_email customer))
                                        && match users.stripe_customer_id u with
                                           | None => true
                                           | Some _ => false
                                           end)
                              (map (with_stripe_customer_id (cus_id customer)
                                                            (users.id user))
                                   (tbl_users db))))
      by (rewrite Hsel2; left; reflexivity).
    apply filter_In in Hv. destruct Hv as [Hv Hvc].
    apply in_map_iff in Hv. destruct Hv as (w & <- & Hw).
    apply andb_true_iff in Hvc. destruct Hvc as [Hwe Hwnull].
    destruct (with_stripe_customer_id_keeps (cus_id customer) (users.id user) w)
      as (_ & H2 & _).
    rewrite H2 in Hwe. apply String.eqb_eq in Hwe.
    assert (E : w = user).
    { apply (NoDup_map_eq users.email _ w user Hemails Hw Huser). congruence. }
    subst w. unfold with_stripe_customer_id in Hwnull.
    rewrite Z.eqb_refl in Hwnull. discriminate.
Qed.







End WebhookExtras.

(** ** Subscription-management and further user routes *)

(** Closes a branch of a route whose answer has another status than the
    one assumed. *)
Ltac wrong_status :=
  cbv beta iota; cbn [fst snd];
  let H := fresh "Hreply" in
  let Hs := fresh "Hstatus" in
  intros H Hs; inversion H; subst; simpl in Hs; lia.

Section RouteExtras.
Context {ext : External}.
Variable process_env : env.

(** A route behind the guard, for a request the guard lets through. *)
Lemma guarded_authenticated
  (authorization : option string) (now : Z) (handler : Z -> M response)
  (db : DB) (userId : Z) :
  authenticated_as process_env authorization now db userId ->
  guarded process_env authorization now handler db = handler userId db.
Proof.
  unfold authenticated_as, reply_of, guarded, bind. intros Hauth.
  pose proof (requireAuth_outcome process_env authorization now db) as Hg.
  destruct (requireAuth process_env authorization now db)
    as [[[uid | r0] | e] db1]; cbn [fst] in Hauth; inversion Hauth; subst.
  destruct Hg as [-> _]. reflexivity.
Qed.

(** A route behind the guard, for a request the guard refuses. *)
Lemma guarded_refused
  (authorization : option string) (now : Z) (handler : Z -> M response)
  (db : DB) :
  (forall userId, ~ authenticated_as process_env authorization now db userId) ->
  exists r, reply_of (guarded process_env authorization now handler db) = Ok r
            /\ status r = 401
            /\ db_after (guarded process_env authorization now handler db)
               = db_after (requireAuth process_env authorization now db).
Proof.
  unfold authenticated_as, reply_of, db_after, guarded, bind. intros Hno.
  pose proof (requireAuth_outcome process_env authorization now db) as Hg.
  destruct (requireAuth process_env authorization now db)
    as [[[uid | r0] | e] db1]; [| | destruct Hg].
  - exfalso. apply (Hno uid). reflexivity.
  - destruct Hg as [H401 _]. exists r0. auto.
Qed.




Lemma guarded_frame
  (authorization : option string) (now : Z) (handler : Z -> M response)
  (db : DB) (P : DB -> Prop) :
  (forall userId, P (snd (handler userId db))) ->
  (forall l, P (set_sessions (fun _ => l) db)) ->
  P (snd (guarded process_env authorization now handler db)).
Proof.
  intros Hh Hs. unfold guarded, bind.
  pose proof (requireAuth_outcome process_env authorization now db) as Hg.
  destruct (requireAuth process_env authorization now db)
    as [[[uid | r0] | e] db1]; [| | destruct Hg].
  - destruct Hg as [-> _]. apply Hh.
  - destruct Hg as [_ ->]. apply Hs.
Qed.

(** X21. The cancellation route writes less than the deletion webhook: it
    never touches the [integrations] or [alerts] tables; a cancellation at
    period end never writes the [users] table; and an immediate
    cancellation answered with status 200 sets the authenticated user's
    [subscription_status] to ['free']. *)
Theorem cancellation_route_frame
  (authorization : option string) (immediate : bool) (now : Z) (db : DB) :
  let run := delete_subscriptions_cancel process_env authorization immediate
                                         now db in
  tbl_integrations (db_after run) = tbl_integrations db
  /\ tbl_alerts (db_after run) = tbl_alerts db
  /\ (immediate = false -> tbl_users (db_after run) = tbl_users db)
  /\ (forall r userId,
        immediate = true ->
        reply_of run = Ok r -> status r = 200 ->
        authenticated_as process_env authorization now db userId ->
        forall x, In x (tbl_users (db_after run)) -> users.id x = userId ->
                  users.subscription_status x = "free").
Proof.
  cbv zeta. unfold db_after, reply_of, delete_subscriptions_cancel.
  split; [| split; [| split]].
  - apply (guarded_frame authorization now _ db
             (fun d => tbl_integrations d = tbl_integrations db));
      try reflexivity.
    intros userId.
    unfold try_catch, bind, select_cancellable_subscriptions, await,
      update_subscription_cancellation, update_users_subscription_status, modify.
    unfold ret, throw.
    split_route; reflexivity.
  - apply (guarded_frame authorization now _ db
             (fun d => tbl_alerts d = tbl_alerts db));
      try reflexivity.
    intros userId.
    unfold try_catch, bind, select_cancellable_subscriptions, await,
      update_subscription_cancellation, update_users_subscription_status, modify.
    unfold ret, throw.
    split_route; reflexivity.
  - intros ->.
    apply (guarded_frame authorization now _ db
             (fun d => tbl_users d = tbl_users db));
      try reflexivity.
    intros userId.
    unfold try_catch, bind, select_cancellable_subscriptions, await,
      update_subscription_cancellation, modify.
    unfold ret, throw.
    split_route; reflexivity.
  - intros r userId -> Hr Hs Hauth.
    rewrite (guarded_authenticated authorization now _ db userId Hauth)
      in Hr |- *.
    revert Hr Hs.
    unfold try_catch, bind, select_cancellable_subscriptions, await,
      update_subscription_cancellation, update_users_subscription_status, modify.
    unfold ret, throw.
    split_route; try wrong_status.
    all: cbn [fst snd]; intros _ _ x Hx Hid;
      cbn [tbl_users set_users set_subscriptions] in Hx;
      exact (status_of_updated_rows _ _ _ x Hx Hid).
Qed.

(** The unread alerts of [u] once every unread alert of [userId] is marked
    as read. *)
Lemma unread_mark_read (userId u : Z) (a : alerts.row) :
  (alerts.user_id (mark_read userId a) =? u)
  && negb (alerts.is_read (mark_read userId a))
  = if u =? userId then false
    else (alerts.user_id a =? u) && negb (alerts.is_read a).
Proof.
  unfold mark_read.
  destruct (Z.eqb_spec (alerts.user_id a) userId) as [Ha | Ha];
    destruct (alerts.is_read a) eqn:Hr;
    cbn [andb negb alerts.user_id alerts.is_read];
    rewrite ?Hr; cbn [negb];
    destruct (Z.eqb_spec u userId) as [Hu | Hu];
    destruct (Z.eqb_spec (alerts.user_id a) u) as [Hv | Hv];
    cbn [andb]; try reflexivity; congruence.
Qed.

Lemma unread_after_mark_read (userId u : Z) (l : list alerts.row) :
  List.length (filter (fun a => (alerts.user_id a =? u) && negb (alerts.is_read a))
                      (map (mark_read userId) l))
  = if u =? userId then 0%nat
    else List.length (filter (fun a => (alerts.user_id a =? u)
                                       && negb (alerts.is_read a)) l).
Proof.
  induction l as [| a l IH].
  - destruct (u =? userId); reflexivity.
  - cbn [map filter]. rewrite unread_mark_read.
    destruct (u =? userId); [exact IH |].
    destruct ((alerts.user_id a =? u) && negb (alerts.is_read a));
      cbn [List.length]; rewrite IH; reflexivity.
Qed.

(** X22. For an authenticated user, [PUT /api/users/alerts/read-all]
    reports as [updated] the number of alerts of that user that were
    unread, leaves that user without unread alerts, keeps the unread
    count of every other user, deletes no alert and writes no other
    table. *)
Theorem read_all_clears_only_the_callers_alerts
  (authorization : option string) (now : Z) (db : DB) (userId : Z) :
  authenticated_as process_env authorization now db userId ->
  let run := put_users_alerts_read_all process_env authorization now db in
  reply_of run
  = Ok (res_json (JObj [("message", JStr "Todas las alertas marcadas como leídas");
                        ("updated", JNum (unread_count userId db))]))
  /\ unread_count userId (db_after run) = 0
  /\ (forall other, other <> userId ->
                    unread_count other (db_after run) = unread_count other db)
  /\ List.length (tbl_alerts (db_after run)) = List.length (tbl_alerts db)
  /\ db_after run = set_alerts (fun _ => tbl_alerts (db_after run)) db.
Proof.
  intros Hauth. cbv zeta. unfold put_users_alerts_read_all.
  rewrite (guarded_authenticated authorization now _ db userId Hauth).
  unfold reply_of, db_after, try_catch, bind, update_alerts_read_all, ret,
    unread_count.
  cbn [fst snd tbl_alerts set_alerts].
  split; [reflexivity |]. split; [| split; [| split]].
  - rewrite unread_after_mark_read, Z.eqb_refl. reflexivity.
  - intros other Hother. rewrite unread_after_mark_read.
    destruct (other =? userId) eqn:He; [| reflexivity].
    apply Z.eqb_eq in He. contradiction.
  - apply length_map.
  - reflexivity.
Qed.

(** The plan row the limits route reads is an active row of the user. *)
Lemma most_recent_In (rows : list subscriptions.row) (r : subscriptions.row) :
  most_recent rows = Some r -> In r rows.
Proof.
  revert r. induction rows as [| x rest IH]; intros r; cbn [most_recent].
  - discriminate.
  - destruct (most_recent rest) as [m |].
    + destruct (subscriptions.created_at m >? subscriptions.created_at x);
        intros H; inversion H; subst; [right; apply IH; reflexivity | left; reflexivity].
    + intros H; inversion H; subst. left; reflexivity.
Qed.

(** X23. [GET /api/integrations/limits] never writes anything beyond what
    the guard does, and for an authenticated user it answers with that
    user's [subscription_status], the count of active integrations and one
    of three limit sets. It grants more than the free limits only when the
    user's [subscription_status] is ['active'] and the user has a
    subscription row with status ['active'] and plan ['pro'] or
    ['business']; a trialing user gets the free limits. *)
Theorem limits_need_an_active_status
  (authorization : option string) (now : Z) (db : DB) (userId : Z)
  (r : response) :
  authenticated_as process_env authorization now db userId ->
  let run := get_integrations_limits process_env authorization now db in
  reply_of run = Ok r ->
  status r = 200 ->
  db_after run = db
  /\ exists user limits,
       In user (tbl_users db)
       /\ users.id user = userId
       /\ r = res_json (limits_body (users.subscription_status user) limits
                                    (active_integrations_count userId db))
       /\ (limits = default_limits \/ limits = pro_limits
           \/ limits = business_limits)
       /\ (limits <> default_limits ->
           users.subscription_status user = "active"
           /\ exists s, In s (tbl_subscriptions db)
                        /\ subscriptions.user_id s = userId
                        /\ subscriptions.status s = "active"
                        /\ (subscriptions.plan_type s = "pro"
                            \/ subscriptions.plan_type s = "business")).
Proof.
  intros Hauth. cbv zeta. unfold get_integrations_limits.
  rewrite (guarded_authenticated authorization now _ db userId Hauth).
  unfold reply_of, db_after, try_catch, bind, select_users_by_id.
  cbv beta iota.
  destruct (filter (fun u => users.id u =? userId) (tbl_users db))
    as [| user rest] eqn:Hu.
  - unfold ret. cbn [fst snd]. intros H Hs. inversion H; subst.
    simpl in Hs. lia.
  - assert (Hin : In user (tbl_users db) /\ users.id user = userId).
    { assert (Hf : In user (filter (fun u => users.id u =? userId) (tbl_users db)))
        by (rewrite Hu; left; reflexivity).
      apply filter_In in Hf. destruct Hf as [Hi He].
      apply Z.eqb_eq in He. split; assumption. }
    destruct Hin as [Hin Hid].
    unfold limits_of, select_latest_active_plan, count_active_integrations,
      bind, ret.
    destruct (String.eqb (users.subscription_status user) "active") eqn:Hst;
      cbv beta iota.
    + apply String.eqb_eq in Hst.
      destruct (most_recent
                  (filter (fun s => (subscriptions.user_id s =? userId)
                                    && String.eqb (subscriptions.status s) "active")
                          (tbl_subscriptions db))) as [row |] eqn:Hrow;
        cbv beta iota.
      * apply most_recent_In in Hrow. apply filter_In in Hrow.
        destruct Hrow as [Hrin Hp]. apply andb_true_iff in Hp.
        destruct Hp as [Hp1 Hp2]. apply Z.eqb_eq in Hp1.
        apply String.eqb_eq in Hp2.
        destruct (String.eqb (subscriptions.plan_type row) "pro") eqn:Hpro;
          [| destruct (String.eqb (subscriptions.plan_type row) "business")
               eqn:Hbus];
          cbn [fst snd]; intros H _; inversion H; clear H;
          (split; [reflexivity |]); exists user; eexists;
          (split; [exact Hin |]); (split; [exact Hid |]);
          (split; [reflexivity |]).
        -- split; [right; left; reflexivity |]. intros _.
           split; [exact Hst |]. exists row.
           apply String.eqb_eq in Hpro. auto.
        -- split; [right; right; reflexivity |]. intros _.
           split; [exact Hst |]. exists row.
           apply String.eqb_eq in Hbus. auto.
        -- split; [left; reflexivity |]. intros Hne. contradiction Hne.
           reflexivity.
      * cbn [fst snd]. intros H _. inversion H; clear H.
        split; [reflexivity |]. exists user, default_limits.
        split; [exact Hin |]. split; [exact Hid |]. split; [reflexivity |].
        split; [left; reflexivity |]. intros Hne. contradiction Hne.
        reflexivity.
    + cbn [fst snd]. intros H _. inversion H; clear H.
      split; [reflexivity |]. exists user, default_limits.
      split; [exact Hin |]. split; [exact Hid |]. split; [reflexivity |].
      split; [left; reflexivity |]. intros Hne. contradiction Hne.
      reflexivity.
Qed.

End RouteExtras.

(** ** What the billing-event endpoint never writes *)

Lemma same_accounts_refl (d : DB) : same_accounts d d.
Proof. repeat split. Qed.

Lemma same_accounts_trans (d1 d2 d3 : DB) :
  same_accounts d1 d2 -> same_accounts d2 d3 -> same_accounts d1 d3.
Proof.
  unfold same_accounts. intros (H1 & H2 & H3) (K1 & K2 & K3).
  repeat split; congruence.
Qed.

Lemma keeps_ret {A} (a : A) : keeps_accounts (ret a).
Proof. intros d. apply same_accounts_refl. Qed.

Lemma keeps_bind {A B} (m : M A) (k : A -> M B) :
  keeps_accounts m -> (forall a, keeps_accounts (k a)) ->
  keeps_accounts (bind m k).
Proof.
  intros Hm Hk d. unfold bind. specialize (Hm d).
  destruct (m d) as [[a | e] d1]; cbn [snd] in *; [| exact Hm].
  eapply same_accounts_trans; [exact Hm | apply Hk].
Qed.

Lemma keeps_try_catch {A} (m : M A) (handler : exn -> M A) :
  keeps_accounts m -> (forall e, keeps_accounts (handler e)) ->
  keeps_accounts (try_catch m handler).
Proof.
  intros Hm Hk d. unfold try_catch. specialize (Hm d).
  destruct (m d) as [[a | e] d1]; cbn [snd] in *; [exact Hm |].
  eapply same_accounts_trans; [exact Hm | apply Hk].
Qed.

Lemma keeps_set_subscriptions (f : list subscriptions.row -> list subscriptions.row) :
  keeps_accounts (modify (set_subscriptions f)).
Proof. intros d. repeat split. Qed.

Lemma keeps_set_integrations (f : list integrations.row -> list integrations.row) :
  keeps_accounts (modify (set_integrations f)).
Proof. intros d. repeat split. Qed.

Lemma keeps_insert_alert
  (userId : Z) (type title message severity : string) (data : option json)
  (now : Z) :
  keeps_accounts (insert_alert userId type title message severity data now).
Proof.
  intros d. unfold insert_alert. destruct (user_exists userId d); repeat split.
Qed.

Lemma keeps_upsert_subscription
  (userId : Z) (stripeSubscriptionId status planType : string)
  (period_start period_end : Z) (cancel : bool) (now : Z) :
  keeps_accounts (upsert_subscription userId stripeSubscriptionId status planType
                                      period_start period_end cancel now).
Proof.
  intros d. unfold upsert_subscription.
  destruct (subscription_exists stripeSubscriptionId d); [repeat split |].
  destruct (user_exists userId d); repeat split.
Qed.

Lemma keeps_update_status (status : string) (userId : Z) :
  keeps_accounts (update_users_subscription_status status userId).
Proof.
  intros d. unfold update_users_subscription_status, modify, same_accounts.
  cbn [snd tbl_sessions users_id_seq tbl_users set_users].
  repeat split. rewrite map_map. apply map_ext. intros u.
  unfold with_status. destruct (users.id u =? userId); reflexivity.
Qed.

Lemma keeps_update_customer (customerId : string) (userId : Z) :
  keeps_accounts (update_users_stripe_customer_id customerId userId).
Proof.
  intros d. unfold update_users_stripe_customer_id, modify, same_accounts.
  cbn [snd tbl_sessions users_id_seq tbl_users set_users].
  repeat split. rewrite map_map. apply map_ext. intros u.
  unfold with_stripe_customer_id. destruct (users.id u =? userId); reflexivity.
Qed.

Lemma keeps_select_customer (stripeCustomerId : string) :
  keeps_accounts (select_users_by_stripe_customer stripeCustomerId).
Proof. intros d. apply same_accounts_refl. Qed.

Lemma keeps_select_unbound (email : string) :
  keeps_accounts (select_unbound_users_by_email email).
Proof. intros d. apply same_accounts_refl. Qed.

(** Composition of the frame lemmas along the structure of a handler. *)
Ltac keeps :=
  repeat match goal with
         | |- forall _, _ => intro
         | |- keeps_accounts (ret _) => apply keeps_ret
         | |- keeps_accounts (try_catch _ _) => apply keeps_try_catch
         | |- keeps_accounts (bind _ _) => apply keeps_bind
         | |- keeps_accounts (select_users_by_stripe_customer _) =>
             apply keeps_select_customer
         | |- keeps_accounts (select_unbound_users_by_email _) =>
             apply keeps_select_unbound
         | |- keeps_accounts (insert_alert _ _ _ _ _ _ _) =>
             apply keeps_insert_alert
         | |- keeps_accounts (upsert_subscription _ _ _ _ _ _ _ _) =>
             apply keeps_upsert_subscription
         | |- keeps_accounts (update_users_subscription_status _ _) =>
             apply keeps_update_status
         | |- keeps_accounts (update_users_stripe_customer_id _ _) =>
             apply keeps_update_customer
         | |- keeps_accounts (modify (set_subscriptions _)) =>
             apply keeps_set_subscriptions
         | |- keeps_accounts (modify (set_integrations _)) =>
             apply keeps_set_integrations
         | |- keeps_accounts (match ?x with _ => _ end) => destruct x
         end.

Section WebhookFrame.
Context {ext : External}.
Variable process_env : env.

Lemma dispatch_keeps_accounts (e : event) (now : Z) :
  keeps_accounts (dispatch e now).
Proof.
  destruct e; cbn [dispatch];
    unfold handleSubscriptionCreated, handleSubscriptionUpdated,
      handleSubscriptionDeleted, handlePaymentSucceeded, handlePaymentFailed,
      handleTrialWillEnd, handleCustomerCreated, getUserByStripeCustomer,
      createUserAlert, update_subscription_by_stripe_id,
      cancel_subscription_by_stripe_id, deactivate_premium_integrations;
    keeps.
Qed.

(** X24. Whatever the request, the billing-event endpoint creates and
    deletes no user, changes no user's id, email, password hash, name,
    company name or creation date, consumes no user id and leaves the
    [sessions] table as it was: of the accounts it writes only
    [subscription_status] and the billing customer reference. *)
Theorem webhook_never_touches_credentials
  (req : webhook_request) (now : Z) (db : DB) :
  let db' := db_after (post_webhooks_stripe process_env req now db) in
  tbl_sessions db' = tbl_sessions db
  /\ users_id_seq db' = users_id_seq db
  /\ map identity_columns (tbl_users db') = map identity_columns (tbl_users db).
Proof.
  cbv zeta. unfold db_after.
  assert (H : keeps_accounts (post_webhooks_stripe process_env req now)).
  { unfold post_webhooks_stripe.
    apply keeps_try_catch; [| intros e; apply keeps_ret].
    destruct (verifyStripeWebhook process_env req) as [| e |];
      try apply keeps_ret;
      (destruct (negb (truthy (STRIPE_SECRET_KEY process_env)));
       [apply keeps_ret |]);
      (apply keeps_bind; [| intros []; apply keeps_ret]).
    - apply keeps_ret.
    - apply dispatch_keeps_accounts. }
  exact (H db).
Qed.

End WebhookFrame.

(** ** The further properties on the sample stores *)

(** X1, witness: the bare token of user 1. *)
Lemma bare_token_is_accepted_witness :
  @requireAuth Fixture.ext Fixture.process_env (Some "token-1") 500 Fixture.db0
  = @requireAuth Fixture.ext Fixture.process_env (Some "Bearer token-1") 500
                 Fixture.db0.
Proof.
  exact (proj1 (@bare_token_is_accepted Fixture.ext Fixture.process_env
                  "token-1" 500 Fixture.db0 eq_refl)).
Defined.

(** X4, witness: user 1 is still authenticated after a sweep. *)
Lemma sweep_preserves_authentication_witness :
  @authenticated_as Fixture.ext Fixture.process_env (Some "Bearer token-1") 600
                    (db_after (cleanupExpiredSessions 500 Fixture.db0)) 1.
Proof.
  assert (Hle : 500 <= 600) by lia.
  apply (proj2 (@sweep_preserves_authentication
                  Fixture.ext Fixture.process_env (Some "Bearer token-1")
                  500 600 Fixture.db0 1 db0_unique_tokens Hle)).
  reflexivity.
Defined.

(** X5, witness: user 2 logs in. *)
Lemma login_token_authenticates_witness :
  exists user,
    In user (tbl_users Fixture.db0)
    /\ users.email user = "b@x.com"
    /\ @bcrypt_compare Fixture.ext "secret2" (users.password_hash user) = true.
Proof.
  destruct (@login_token_authenticates
              Fixture.ext Fixture.process_env (Some "b@x.com") (Some "secret2")
              500 Fixture.db0
              (res_json (@account_body "Login exitoso" Fixture.bob [] "token-2"))
              eq_refl eq_refl)
    as (user & Hin & Hemail & Hpw & _).
  exists user. split; [exact Hin |]. split; [exact Hemail | exact Hpw].
Defined.

(** X6, witness: a third user registers. *)
Lemma registration_creates_a_free_user_witness :
  tbl_users (db_after (@post_auth_register
                         Fixture.ext Fixture.process_env (Some "c@x.com")
                         (Some "secret33") (Some "Carol") None "salt" 500
                         Fixture.db0))
  = [Fixture.alice; Fixture.bob;
     users.mk 3 "c@x.com" "hash:secret33" "Carol" None "free" None 500 500].
Proof.
  refine (proj1 (@registration_creates_a_free_user
                   Fixture.ext Fixture.process_env (Some "c@x.com")
                   (Some "secret33") (Some "Carol") None "salt" 500
                   Fixture.db0 _ eq_refl eq_refl)).
Defined.


(** X11, witness: a well-signed creation event without the webhook
    secret. *)
Lemma unconfigured_endpoint_never_writes_witness :
  db_after (@post_webhooks_stripe
              Fixture.ext Sample.env_without_webhook_secret
              (Fixture.signed "customer.subscription.created") 5000 Fixture.db1)
  = Fixture.db1.
Proof.
  exact (proj1 (@unconfigured_endpoint_never_writes
                  Fixture.ext Sample.env_without_webhook_secret
                  (Fixture.signed "customer.subscription.created") 5000
                  Fixture.db1 (or_introl eq_refl))).
Defined.


(** X14, witness: a creation event that names the Business plan for the
    reference of a Pro row. *)
Lemma creation_on_existing_reference_keeps_owner_and_plan_witness :
  map (fun s => (subscriptions.user_id s, subscriptions.stripe_subscription_id s,
                 subscriptions.plan_type s, subscriptions.created_at s))
      (tbl_subscriptions
         (db_after (handleSubscriptionCreated Sample.sub_1_business 5000
                                              Fixture.db1)))
  = [(1, Some "sub_1", "pro", 50)].
Proof.
  exact (creation_on_existing_reference_keeps_owner_and_plan
           Sample.sub_1_business 5000 Fixture.db1 Fixture.alice
           eq_refl eq_refl).
Defined.


Lemma db0_unique_ids : NoDup (map users.id (tbl_users Fixture.db0)).
Proof.
  simpl. repeat constructor; simpl; intuition discriminate.
Qed.

Lemma db0_unique_emails : NoDup (map users.email (tbl_users Fixture.db0)).
Proof.
  simpl. repeat constructor; simpl; intuition discriminate.
Qed.

(** X16, witness: the customer of user 2, delivered twice. *)
Lemma customer_created_binds_once_witness :
  db_after (handleCustomerCreated
              Fixture.customer_new
              (db_after (handleCustomerCreated Fixture.customer_new Fixture.db0)))
  = db_after (handleCustomerCreated Fixture.customer_new Fixture.db0).
Proof.
  exact (proj2 (proj2 (customer_created_binds_once
                         Fixture.customer_new Fixture.db0
                         db0_unique_ids db0_unique_emails))).
Defined.






(** X22, witness: user 1 has one unread alert among three. *)
Lemma read_all_clears_only_the_callers_alerts_witness :
  reply_of (@put_users_alerts_read_all
              Fixture.ext Fixture.process_env (Some "Bearer token-1") 500
              Sample.db_alerts)
  = Ok (res_json (JObj [("message", JStr "Todas las alertas marcadas como leídas");
                        ("updated", JNum 1)]))
  /\ unread_count 2 (db_after (@put_users_alerts_read_all
                                 Fixture.ext Fixture.process_env
                                 (Some "Bearer token-1") 500 Sample.db_alerts))
     = 1.
Proof.
  pose proof (@read_all_clears_only_the_callers_alerts
                Fixture.ext Fixture.process_env (Some "Bearer token-1") 500
                Sample.db_alerts 1 eq_refl) as H.
  cbv zeta in H. destruct H as (Hreply & _ & Hother & _).
  split; [exact Hreply |].
  assert (Hne : 2 <> 1) by discriminate.
  exact (Hother 2 Hne).
Defined.

(** X23, witness: a user on a Pro trial gets the free limits. *)
Lemma limits_need_an_active_status_witness :
  db_after (@get_integrations_limits
              Fixture.ext Fixture.process_env (Some "Bearer token-3") 500
              Sample.db_trial)
  = Sample.db_trial.
Proof.
  exact (proj1 (@limits_need_an_active_status
                  Fixture.ext Fixture.process_env (Some "Bearer token-3") 500
                  Sample.db_trial 3
                  (res_json (limits_body "trialing" default_limits 0))
                  eq_refl eq_refl eq_refl)).
Defined.
